(** * Study sessions and statistics of the flashcard backend

    A shallow embedding of [routes/flashcards.js]: the Mongoose collections
    are finite maps keyed by [_id], every route handler is a function in a
    small state-and-exception monad (a rejected [await] is an exception,
    caught by the handler's [catch] block and answered with status 500),
    and JavaScript numbers are IEEE 754 doubles where the rounding of the
    double arithmetic is observable.  A request reaches a handler through
    the router, which tries the routes in the order of their registration,
    and through the validation chain of the route. *)

From Stdlib Require Import Floats ZArith String Ascii.
From stdpp Require Import gmap strings list fin_maps sorting.

Local Open Scope Z_scope.

(** ** JavaScript primitives used by the handlers *)

Module Js.

(** The Number nearest to an integer (round to nearest, ties to even):
    exact below [2^53]. *)
Definition of_Z (z : Z) : float :=
  SF2Prim (binary_normalize prec emax z 0 false).

(** [a / b] and [a * b] on Numbers. *)
Definition div (a b : float) : float := PrimFloat.div a b.
Definition mul (a b : float) : float := PrimFloat.mul a b.

(** [Math.round(x)]: the integer nearest to [x], a tie going towards
    plus infinity; [None] stands for a result that is no integer
    ([NaN], [Infinity], [-Infinity]). *)
Definition Math_round (x : float) : option Z :=
  match Prim2SF x with
  | S754_zero _ => Some 0
  | S754_finite s m e =>
      let n := if s then Z.neg m else Z.pos m in
      Some (if 0 <=? e then n * 2 ^ e
            else (2 * n + 2 ^ (- e)) / 2 ^ (1 - e))
  | S754_infinity _ | S754_nan => None
  end.

(** [str.replace(pat, rep)] for a one-character string pattern: only the
    first occurrence is replaced. *)
Fixpoint replace (pat : ascii) (rep : string) (s : string) : string :=
  match s with
  | EmptyString => EmptyString
  | String c s' =>
      if Ascii.eqb c pat then (rep ++ s')%string
      else String c (replace pat rep s')
  end.

(** A JavaScript string is held as its UTF-8 bytes: a character below
    U+0080 is one byte, one below U+0800 two bytes, one below U+10000
    three.  The code point that one, two or three bytes encode, if they
    encode one. *)
Definition continuation (c : ascii) : option N :=
  let n := N_of_ascii c in
  if ((128 <=? n) && (n <=? 191))%N then Some (n - 128)%N else None.

Definition code_point1 (c1 : ascii) : option N :=
  let n := N_of_ascii c1 in
  if (n <? 128)%N then Some n else None.

Definition code_point2 (c1 c2 : ascii) : option N :=
  let n := N_of_ascii c1 in
  if ((194 <=? n) && (n <=? 223))%N
  then b2 ← continuation c2; Some ((n - 192) * 64 + b2)%N
  else None.

Definition code_point3 (c1 c2 c3 : ascii) : option N :=
  let n := N_of_ascii c1 in
  if ((224 <=? n) && (n <=? 239))%N
  then b2 ← continuation c2; b3 ← continuation c3;
       let cp := ((n - 224) * 4096 + b2 * 64 + b3)%N in
       if (2048 <=? cp)%N then Some cp else None
  else None.

(** White space as [parseInt], [trim] and the [\s] of a regular expression
    have it (WhiteSpace and LineTerminator): U+0009 to U+000D, U+0020,
    U+00A0, U+1680, U+2000 to U+200A, U+2028, U+2029, U+202F, U+205F,
    U+3000 and U+FEFF. *)
Definition is_whitespace (cp : N) : bool :=
  ((9 <=? cp) && (cp <=? 13) || (cp =? 32) || (cp =? 160) || (cp =? 5760)
   || (8192 <=? cp) && (cp <=? 8202) || (cp =? 8232) || (cp =? 8233)
   || (cp =? 8239) || (cp =? 8287) || (cp =? 12288) || (cp =? 65279))%N.

Definition is_space (o : option N) : bool :=
  match o with Some cp => is_whitespace cp | None => false end.

(** [s] without the white space it starts with. *)
Fixpoint trim_start (s : string) : string :=
  match s with
  | EmptyString => s
  | String c1 s1 =>
      if is_space (code_point1 c1) then trim_start s1
      else
        match s1 with
        | EmptyString => s
        | String c2 s2 =>
            if is_space (code_point2 c1 c2) then trim_start s2
            else
              match s2 with
              | EmptyString => s
              | String c3 s3 =>
                  if is_space (code_point3 c1 c2 c3) then trim_start s3
                  else s
              end
        end
  end.

Fixpoint reverse_onto (s acc : string) : string :=
  match s with
  | EmptyString => acc
  | String c s' => reverse_onto s' (String c acc)
  end.

Definition reverse (s : string) : string := reverse_onto s "".

(** [trim_start] on a string that is read from its end: the bytes of a
    character come last byte first. *)
Fixpoint trim_reversed (r : string) : string :=
  match r with
  | EmptyString => r
  | String c1 r1 =>
      if is_space (code_point1 c1) then trim_reversed r1
      else
        match r1 with
        | EmptyString => r
        | String c2 r2 =>
            if is_space (code_point2 c2 c1) then trim_reversed r2
            else
              match r2 with
              | EmptyString => r
              | String c3 r3 =>
                  if is_space (code_point3 c3 c2 c1) then trim_reversed r3
                  else r
              end
        end
  end.

(** [s] without the white space it ends with. *)
Definition trim_end (s : string) : string :=
  reverse (trim_reversed (reverse s)).

Definition digit_value (c : ascii) : option Z :=
  let n := Z.of_N (N_of_ascii c) in
  if (48 <=? n) && (n <=? 57) then Some (n - 48)
  else if (97 <=? n) && (n <=? 122) then Some (n - 87)
  else if (65 <=? n) && (n <=? 90) then Some (n - 55)
  else None.

(** The longest prefix of radix-[radix] digits, as an integer; [acc] is
    [None] while no digit has been read. *)
Fixpoint parse_digits (radix : Z) (acc : option Z) (s : string) : option Z :=
  match s with
  | EmptyString => acc
  | String c s' =>
      match digit_value c with
      | Some d =>
          if d <? radix
          then parse_digits radix (Some (radix * default 0 acc + d)) s'
          else acc
      | None => acc
      end
  end.

(** [parseInt(s)] without a radix argument; [None] is [NaN].  The
    mathematical value is returned: it is the Number itself below
    [2^53]. *)
Definition parseInt (s : string) : option Z :=
  let s1 := trim_start s in
  let '(sign, s2) :=
    match s1 with
    | String "-" r => (-1, r)
    | String "+" r => (1, r)
    | _ => (1, s1)
    end in
  let '(radix, s3) :=
    match s2 with
    | String "0" (String "x" r) | String "0" (String "X" r) => (16, r)
    | _ => (10, s2)
    end in
  Z.mul sign <$> parse_digits radix None s3.

(** [new Date(t)] is a valid date exactly when [|t| <= 8.64e15]. *)
Definition Date_of (t : Z) : option Z :=
  if Z.abs t <=? 8640000000000000 then Some t else None.

(** [a || b] on an optional string: [undefined] and the empty string are
    falsy. *)
Definition or_string (a : option string) (b : string) : string :=
  match a with
  | Some s => if String.eqb s "" then b else s
  | None => b
  end.

End Js.

(** ** Validators and sanitizers of the routes (express-validator) *)

Module Validator.

(** [trim()]: the white space at both ends is taken off. *)
Definition trim (s : string) : string := Js.trim_end (Js.trim_start s).

(** The variation selectors U+FE0E and U+FE0F, which [isLength] leaves
    out of the count. *)
Definition variation_selector (s : string) : bool :=
  match s with
  | String c1 (String c2 (String c3 _)) =>
      ((N_of_ascii c1 =? 239) && (N_of_ascii c2 =? 184)
       && ((N_of_ascii c3 =? 142) || (N_of_ascii c3 =? 143)))%N
  | _ => false
  end.

(** The length [isLength] compares: [str.length] less the surrogate pairs
    and the variation selectors, which is the number of characters that
    are no variation selector. *)
Fixpoint counted_length (s : string) : nat :=
  match s with
  | EmptyString => 0
  | String c s' =>
      match Js.continuation c with
      | Some _ => counted_length s'
      | None =>
          if variation_selector s then counted_length s'
          else S (counted_length s')
      end
  end.

(** [isLength({ min, max })] *)
Definition isLength (min : nat) (max : option nat) (s : string) : bool :=
  let len := counted_length s in
  (min <=? len)%nat &&
  match max with Some m => (len <=? m)%nat | None => true end.

Definition is_hex (c : ascii) : bool :=
  match Js.digit_value c with Some d => d <? 16 | None => false end.

Definition all_hex (s : string) : bool :=
  negb (String.eqb s "") && forallb is_hex (list_ascii_of_string s).

(** [isHexadecimal]: the pattern [/^(0x|0h)?[0-9A-F]+$/i] *)
Definition isHexadecimal (s : string) : bool :=
  match s with
  | String "0" (String "x" r) | String "0" (String "X" r)
  | String "0" (String "h" r) | String "0" (String "H" r) => all_hex r
  | _ => all_hex s
  end.

(** [isMongoId]: hexadecimal and 24 long *)
Definition isMongoId (s : string) : bool :=
  isHexadecimal s && (String.length s =? 24)%nat.

(** [body(f).trim().isLength({ min: 1 })]: whether the field passes, and
    the field as the sanitizer leaves it.  A field that is not there is
    read as the empty string. *)
Definition required (o : option string) : bool * option string :=
  let s := trim (default "" o) in (isLength 1 None s, Some s).

(** [body(f).optional().trim().isLength({ min, max })]: a field that is
    not there is passed over by validators and sanitizers alike. *)
Definition optional (min : nat) (max : option nat) (o : option string)
  : bool * option string :=
  match o with
  | None => (true, None)
  | Some s => let s' := trim s in (isLength min max s', Some s')
  end.

End Validator.

(** ** Documents *)

Abbreviation ObjectId := N (only parsing).

Inductive Difficulty := easy | medium | hard.

Record CardStatistics := {
  totalViews : Z;
  correctAnswers : Z;
  incorrectAnswers : Z
}.

Record Flashcard := {
  question : string;
  answer : string;
  fc_category : string;
  difficulty : Difficulty;
  tags : list string;
  fc_deck : ObjectId;
  fc_createdBy : ObjectId;
  fc_statistics : CardStatistics
}.

Record DeckSettings := { randomOrder : bool }.

Record DeckStatistics := {
  totalCards : Z;
  totalStudyTime : Z;
  averageScore : Z
}.

Record Deck := {
  name : string;
  description : option string;
  deck_category : string;
  isPublic : bool;
  color : string;
  deck_createdBy : ObjectId;
  settings : DeckSettings;
  deck_statistics : DeckStatistics
}.

(** One entry of [studySession.flashcards]; [isCorrect = None] is the
    [null] of an unanswered card. *)
Record SessionCard := {
  flashcard : ObjectId;
  isCorrect : option bool;
  timeSpent : Z;
  attempts : N
}.

(** The running score; the two tallies are JavaScript integers, exact
    below [2^53]. *)
Record Score := {
  correct : N;
  incorrect : N;
  percentage : Z
}.

Record StudySession := {
  user : ObjectId;
  deck : ObjectId;
  flashcards : list SessionCard;
  score : Score;
  startTime : Z;
  endTime : option Z;
  totalDuration : option Z;
  isCompleted : bool;
  createdAt : Z
}.

(** Modelled from the spec: the Mongoose schemas that [routes/flashcards.js]
    requires ([StudySession], and a [Deck] and a [Flashcard] with owner,
    settings and statistics) are not part of the sources; the schemas under
    [models/] are those of the flashcardController routes and have none of
    these fields.  The defaults the schemas give to the fields a handler
    leaves out follow the data model of the specification: the statistics
    of a flashcard start at zero. *)
Definition default_card_statistics : CardStatistics :=
  {| totalViews := 0; correctAnswers := 0; incorrectAnswers := 0 |}.

(** Modelled from the spec: the aggregate statistics of a deck, absent from
    the sources with the [Deck] schema, start at zero. *)
Definition default_deck_statistics : DeckStatistics :=
  {| totalCards := 0; totalStudyTime := 0; averageScore := 0 |}.

(** Modelled from the spec: the settings of a deck, absent from the sources
    with the [Deck] schema, start with the random order switched off. *)
Definition default_settings : DeckSettings := {| randomOrder := false |}.

(** Modelled from the spec: the score of a session, absent from the sources
    with the [StudySession] schema, starts at zero correct and zero
    incorrect, with a percentage of zero (undefined or zero in the
    specification) while nothing is answered. *)
Definition default_score : Score :=
  {| correct := 0; incorrect := 0; percentage := 0 |}.

(** Modelled from the spec: what the [StudySession] schema, absent from the
    sources, adds to the fields [StudySession.create] is given: the start
    and creation time are the time of creation, the session is not
    completed and has neither end time nor duration, and the score is
    zero. *)
Definition new_session (now : Z) (u d : ObjectId) (cs : list SessionCard)
  : StudySession :=
  {| user := u; deck := d; flashcards := cs; score := default_score;
     startTime := now; endTime := None; totalDuration := None;
     isCompleted := false; createdAt := now |}.

(** ** The database *)

Record Store := {
  decks : gmap N Deck;
  cards : gmap N Flashcard;
  sessions : gmap N StudySession
}.

Definition empty_store : Store :=
  {| decks := ∅; cards := ∅; sessions := ∅ |}.

Definition set_decks (f : gmap N Deck → gmap N Deck) (st : Store) : Store :=
  {| decks := f (decks st); cards := cards st; sessions := sessions st |}.

Definition set_cards (f : gmap N Flashcard → gmap N Flashcard) (st : Store)
  : Store :=
  {| decks := decks st; cards := f (cards st); sessions := sessions st |}.

Definition set_sessions (f : gmap N StudySession → gmap N StudySession)
  (st : Store) : Store :=
  {| decks := decks st; cards := cards st; sessions := f (sessions st) |}.

(** ** Requests: environment, exceptions and responses *)

Inductive Model := DeckM | FlashcardM | StudySessionM.

Inductive Method :=
| op_create | op_find | op_findOne | op_findById | op_findByIdAndUpdate
| op_findByIdAndDelete | op_deleteMany | op_countDocuments | op_save.

(** What a request finds around it: the clock, the [_id] Mongoose gives to
    a document it creates, the store calls that reject during the request,
    and the order in which [Array.prototype.sort] leaves an array under the
    coin-flipping comparator [() => Math.random() - 0.5]. *)
Record Env := {
  now : Z;
  newId : ObjectId;
  rejects : Model → Method → bool;
  sort_random : list (ObjectId * Flashcard) → list (ObjectId * Flashcard)
}.

Definition no_rejects : Model → Method → bool := λ _ _, false.

(** A handler body: [None] is an exception on its way to [catch]. *)
Definition M (A : Type) : Type := Store → Store * option A.

Definition ret {A} (a : A) : M A := λ st, (st, Some a).

Definition throw {A} : M A := λ st, (st, None).

Definition bind {A B} (c : M A) (k : A → M B) : M B :=
  λ st, match c st with
        | (st', Some a) => k a st'
        | (st', None) => (st', None)
        end.

Definition gets {A} (f : Store → A) : M A := λ st, (st, Some (f st)).

Definition modify (f : Store → Store) : M unit := λ st, (f st, Some tt).

Notation "'let*' x ':=' c 'in' k" := (bind c (λ x, k))
  (at level 10, x name, c at level 100, k at level 200).
Notation "'run' c 'in' k" := (bind c (λ _, k))
  (at level 10, c at level 100, k at level 200).

(** An awaited store call: it does nothing and throws when the environment
    has it reject. *)
Definition await (env : Env) (m : Model) (op : Method) : M unit :=
  if rejects env m op then throw else ret tt.

Inductive Response (A : Type) :=
| Success (status : nat) (data : A)
| Failure (status : nat) (message : string).
Arguments Success {A} status data.
Arguments Failure {A} status message.

(** [try { body } catch (error) { res.status(500).json(...) }] *)
Definition handler {A} (body : M (Response A)) (st : Store)
  : Store * Response A :=
  match body st with
  | (st', Some r) => (st', r)
  | (st', None) => (st', Failure 500 "Server error")
  end.

(** ** Store calls (Mongoose) *)

(** [Deck.findOne({ _id, $or: [{ createdBy }, { isPublic: true }] })] *)
Definition Deck_findOne_visible (env : Env) (id uid : ObjectId)
  : M (option Deck) :=
  run await env DeckM op_findOne in
  let* ds := gets decks in
  ret (match ds !! id with
       | Some d =>
           if (deck_createdBy d =? uid)%N || isPublic d then Some d else None
       | None => None
       end).

(** [Deck.findOne({ _id, createdBy })] *)
Definition Deck_findOne_owned (env : Env) (id uid : ObjectId)
  : M (option Deck) :=
  run await env DeckM op_findOne in
  let* ds := gets decks in
  ret (match ds !! id with
       | Some d => if (deck_createdBy d =? uid)%N then Some d else None
       | None => None
       end).

(** [Model.create(doc)]: the document is stored under the new [_id]; the
    database refuses an [_id] that is already taken. *)
Definition Deck_create (env : Env) (d : Deck) : M ObjectId :=
  run await env DeckM op_create in
  let* ds := gets decks in
  match ds !! newId env with
  | Some _ => throw
  | None =>
      run modify (set_decks <[newId env := d]>) in ret (newId env)
  end.

(** [Deck.findByIdAndUpdate(id, update)]: no document, no change. *)
Definition Deck_findByIdAndUpdate (env : Env) (id : ObjectId)
  (update : Deck → Deck) : M unit :=
  run await env DeckM op_findByIdAndUpdate in
  modify (set_decks (alter update id)).

Definition Deck_findByIdAndDelete (env : Env) (id : ObjectId) : M unit :=
  run await env DeckM op_findByIdAndDelete in
  modify (set_decks (delete id)).

(** [Flashcard.find({ deck })] *)
Definition in_deck (did : ObjectId) (p : ObjectId * Flashcard) : Prop :=
  fc_deck p.2 = did.

#[global] Instance in_deck_dec did p : Decision (in_deck did p).
Proof. unfold in_deck. apply _. Defined.

Definition Flashcard_find (env : Env) (did : ObjectId)
  : M (list (ObjectId * Flashcard)) :=
  run await env FlashcardM op_find in
  let* cs := gets cards in
  ret (map_to_list (filter (in_deck did) cs)).

(** [Flashcard.findOne({ _id, createdBy })] *)
Definition Flashcard_findOne_owned (env : Env) (id uid : ObjectId)
  : M (option Flashcard) :=
  run await env FlashcardM op_findOne in
  let* cs := gets cards in
  ret (match cs !! id with
       | Some c => if (fc_createdBy c =? uid)%N then Some c else None
       | None => None
       end).

Definition Flashcard_findById (env : Env) (id : ObjectId)
  : M (option Flashcard) :=
  run await env FlashcardM op_findById in
  let* cs := gets cards in
  ret (cs !! id).

Definition Flashcard_create (env : Env) (c : Flashcard) : M ObjectId :=
  run await env FlashcardM op_create in
  let* cs := gets cards in
  match cs !! newId env with
  | Some _ => throw
  | None =>
      run modify (set_cards <[newId env := c]>) in ret (newId env)
  end.

Definition Flashcard_findByIdAndUpdate (env : Env) (id : ObjectId)
  (update : Flashcard → Flashcard) : M unit :=
  run await env FlashcardM op_findByIdAndUpdate in
  modify (set_cards (alter update id)).

Definition Flashcard_findByIdAndDelete (env : Env) (id : ObjectId) : M unit :=
  run await env FlashcardM op_findByIdAndDelete in
  modify (set_cards (delete id)).

(** [Flashcard.deleteMany({ deck })] *)
Definition Flashcard_deleteMany (env : Env) (did : ObjectId) : M unit :=
  run await env FlashcardM op_deleteMany in
  modify (set_cards (filter (λ p, ¬ in_deck did p))).

Definition StudySession_create (env : Env) (s : StudySession) : M ObjectId :=
  run await env StudySessionM op_create in
  let* ss := gets sessions in
  match ss !! newId env with
  | Some _ => throw
  | None =>
      run modify (set_sessions <[newId env := s]>) in ret (newId env)
  end.

(** [StudySession.findOne({ _id, user })] *)
Definition StudySession_findOne (env : Env) (id uid : ObjectId)
  : M (option StudySession) :=
  run await env StudySessionM op_findOne in
  let* ss := gets sessions in
  ret (match ss !! id with
       | Some s => if (user s =? uid)%N then Some s else None
       | None => None
       end).

(** [studySession.save()]: the document read under [id] is written back. *)
Definition StudySession_save (env : Env) (id : ObjectId) (s : StudySession)
  : M unit :=
  run await env StudySessionM op_save in
  modify (set_sessions <[id := s]>).

(** [StudySession.deleteMany({ deck })] *)
Definition StudySession_deleteMany (env : Env) (did : ObjectId) : M unit :=
  run await env StudySessionM op_deleteMany in
  modify (set_sessions (filter (λ p, deck p.2 ≠ did))).

(** ** The study session routes *)

Record StartData := {
  sessionId : ObjectId;
  sd_flashcards : list (ObjectId * Flashcard);
  deckSettings : DeckSettings
}.

(** [card => ({ flashcard: card._id, isCorrect: null, timeSpent: 0,
    attempts: 0 })] *)
Definition blank_card (p : ObjectId * Flashcard) : SessionCard :=
  {| flashcard := p.1; isCorrect := None; timeSpent := 0; attempts := 0 |}.

(** [POST /study/:deckId] *)
Definition StartSession (env : Env) (uid did : ObjectId)
  : Store → Store * Response StartData :=
  handler (
    let* found := Deck_findOne_visible env did uid in
    match found with
    | None => ret (Failure 404 "Deck not found or not authorized")
    | Some d =>
        let* found_cards := Flashcard_find env did in
        if (length found_cards =? 0)%nat
        then ret (Failure 400 "No flashcards found in this deck")
        else
          let ordered :=
            if randomOrder (settings d) then sort_random env found_cards
            else found_cards in
          let* sid :=
            StudySession_create env
              (new_session (now env) uid did (blank_card <$> ordered)) in
          ret (Success 201 {| sessionId := sid; sd_flashcards := ordered;
                              deckSettings := settings d |})
    end).

(** [studySession.flashcards.findIndex(card => card.flashcard.toString()
    === flashcardId)]; [None] is [-1]. *)
Definition findIndex (fid : ObjectId) (cs : list SessionCard) : option nat :=
  fst <$> list_find (λ c, flashcard c = fid) cs.

(** The three assignments to [studySession.flashcards[flashcardIndex]]. *)
Definition answer_card (b : bool) (t : Z) (c : SessionCard) : SessionCard :=
  {| flashcard := flashcard c; isCorrect := Some b;
     timeSpent := timeSpent c + t; attempts := N.succ (attempts c) |}.

Definition inc_correct (sc : Score) : Score :=
  {| correct := N.succ (correct sc); incorrect := incorrect sc;
     percentage := percentage sc |}.

Definition inc_incorrect (sc : Score) : Score :=
  {| correct := correct sc; incorrect := N.succ (incorrect sc);
     percentage := percentage sc |}.

Definition inc_correctAnswers (c : Flashcard) : Flashcard :=
  {| question := question c; answer := answer c;
     fc_category := fc_category c; difficulty := difficulty c;
     tags := tags c; fc_deck := fc_deck c; fc_createdBy := fc_createdBy c;
     fc_statistics :=
       {| totalViews := totalViews (fc_statistics c);
          correctAnswers := correctAnswers (fc_statistics c) + 1;
          incorrectAnswers := incorrectAnswers (fc_statistics c) |} |}.

Definition inc_incorrectAnswers (c : Flashcard) : Flashcard :=
  {| question := question c; answer := answer c;
     fc_category := fc_category c; difficulty := difficulty c;
     tags := tags c; fc_deck := fc_deck c; fc_createdBy := fc_createdBy c;
     fc_statistics :=
       {| totalViews := totalViews (fc_statistics c);
          correctAnswers := correctAnswers (fc_statistics c);
          incorrectAnswers := incorrectAnswers (fc_statistics c) + 1 |} |}.

(** [Math.round((score.correct / totalAnswered) * 100)], in doubles. *)
Definition percentage_of (sc : Score) : option Z :=
  let totalAnswered := (correct sc + incorrect sc)%N in
  Js.Math_round
    (Js.mul (Js.div (Js.of_Z (Z.of_N (correct sc)))
                    (Js.of_Z (Z.of_N totalAnswered)))
            (Js.of_Z 100)).

Definition with_progress (s : StudySession) (cs : list SessionCard)
  (sc : Score) : StudySession :=
  {| user := user s; deck := deck s; flashcards := cs; score := sc;
     startTime := startTime s; endTime := endTime s;
     totalDuration := totalDuration s; isCompleted := isCompleted s;
     createdAt := createdAt s |}.

(** [PUT /study/:sessionId].  The session is changed in memory and reaches
    the database with [save()], the last store call of the handler.  A
    percentage that is no number cannot be saved to a Number path. *)
Definition RecordOutcome (env : Env) (uid sid fid : ObjectId)
  (isCorrect : bool) (timeSpent : Z)
  : Store → Store * Response StudySession :=
  handler (
    let* found := StudySession_findOne env sid uid in
    match found with
    | None => ret (Failure 404 "Study session not found")
    | Some s =>
        match findIndex fid (flashcards s) with
        | None => ret (Failure 400 "Flashcard not found in this session")
        | Some flashcardIndex =>
            let cs :=
              alter (answer_card isCorrect timeSpent) flashcardIndex
                    (flashcards s) in
            let* sc :=
              if isCorrect
              then run Flashcard_findByIdAndUpdate env fid inc_correctAnswers
                   in ret (inc_correct (score s))
              else run Flashcard_findByIdAndUpdate env fid
                         inc_incorrectAnswers
                   in ret (inc_incorrect (score s)) in
            match percentage_of sc with
            | None => throw
            | Some p =>
                let s' :=
                  with_progress s cs
                    {| correct := correct sc; incorrect := incorrect sc;
                       percentage := p |} in
                run StudySession_save env sid s' in
                ret (Success 200 s')
            end
        end
    end).

(** [Math.floor((endTime - startTime) / 1000)]: [Math.floor] of a quotient
    of integers by 1000 or 60 is the integer quotient rounded down. *)
Definition elapsed_seconds (endT : Z) (s : StudySession) : Z :=
  (endT - startTime s) / 1000.

Definition completed_at (endT : Z) (s : StudySession) : StudySession :=
  {| user := user s; deck := deck s; flashcards := flashcards s;
     score := score s; startTime := startTime s; endTime := Some endT;
     totalDuration := Some (elapsed_seconds endT s);
     isCompleted := true; createdAt := createdAt s |}.

(** [$inc: { 'statistics.totalStudyTime': minutes,
    'statistics.averageScore': pct }] *)
Definition inc_study (minutes pct : Z) (d : Deck) : Deck :=
  {| name := name d; description := description d;
     deck_category := deck_category d; isPublic := isPublic d;
     color := color d; deck_createdBy := deck_createdBy d;
     settings := settings d;
     deck_statistics :=
       {| totalCards := totalCards (deck_statistics d);
          totalStudyTime := totalStudyTime (deck_statistics d) + minutes;
          averageScore := averageScore (deck_statistics d) + pct |} |}.

(** [PUT /study/:sessionId/complete] *)
Definition CompleteSession (env : Env) (uid sid : ObjectId)
  : Store → Store * Response StudySession :=
  handler (
    let* found := StudySession_findOne env sid uid in
    match found with
    | None => ret (Failure 404 "Study session not found")
    | Some s =>
        let s' := completed_at (now env) s in
        run StudySession_save env sid s' in
        run Deck_findByIdAndUpdate env (deck s')
              (inc_study (elapsed_seconds (now env) s / 60)
                         (percentage (score s'))) in
        ret (Success 200 s')
    end).

(** ** The deck and flashcard routes that write to the database

    A handler is given what the validation chain of its route leaves it:
    [valid] is the outcome of [validationResult(req).isEmpty()] and the
    body is [req.body] after the sanitizers.  The chains, and the routes
    with their chains, follow the handlers.  An [_id] is well formed by
    its type. *)

Record DeckBody := {
  b_name : option string;
  b_description : option string;
  b_category : option string;
  b_isPublic : option bool;
  b_color : option string;
  b_settings : option DeckSettings
}.

Record CardBody := {
  b_question : option string;
  b_answer : option string;
  b_card_category : option string;
  b_difficulty : option Difficulty;
  b_tags : option (list string)
}.

(** [POST /decks]; a valid request carries a name and a category. *)
Definition CreateDeck (env : Env) (uid : ObjectId) (valid : bool)
  (b : DeckBody) : Store → Store * Response ObjectId :=
  handler (
    if negb valid then ret (Failure 400 "Validation error")
    else
      let* id :=
        Deck_create env
          {| name := default "" (b_name b);
             description := b_description b;
             deck_category := default "" (b_category b);
             isPublic := default false (b_isPublic b);
             color := Js.or_string (b_color b) "#3B82F6";
             deck_createdBy := uid;
             settings := default_settings;
             deck_statistics := default_deck_statistics |} in
      ret (Success 201 id)).

Definition update_deck (b : DeckBody) (old d : Deck) : Deck :=
  {| name := Js.or_string (b_name b) (name old);
     description :=
       match b_description b with
       | Some s => if String.eqb s "" then description old else Some s
       | None => description old
       end;
     deck_category := Js.or_string (b_category b) (deck_category old);
     isPublic := default (isPublic old) (b_isPublic b);
     color := Js.or_string (b_color b) (color old);
     deck_createdBy := deck_createdBy d;
     settings := default (settings old) (b_settings b);
     deck_statistics := deck_statistics d |}.

(** [PUT /decks/:id] *)
Definition UpdateDeck (env : Env) (uid id : ObjectId) (valid : bool)
  (b : DeckBody) : Store → Store * Response unit :=
  handler (
    if negb valid then ret (Failure 400 "Validation error")
    else
      let* found := Deck_findOne_owned env id uid in
      match found with
      | None => ret (Failure 404 "Deck not found or not authorized")
      | Some d =>
          run Deck_findByIdAndUpdate env id (update_deck b d) in
          ret (Success 200 tt)
      end).

(** [DELETE /decks/:id] *)
Definition DeleteDeck (env : Env) (uid id : ObjectId)
  : Store → Store * Response unit :=
  handler (
    let* found := Deck_findOne_owned env id uid in
    match found with
    | None => ret (Failure 404 "Deck not found or not authorized")
    | Some _ =>
        run Flashcard_deleteMany env id in
        run StudySession_deleteMany env id in
        run Deck_findByIdAndDelete env id in
        ret (Success 200 tt)
    end).

(** [$inc: { 'statistics.totalCards': n }] *)
Definition inc_totalCards (n : Z) (d : Deck) : Deck :=
  {| name := name d; description := description d;
     deck_category := deck_category d; isPublic := isPublic d;
     color := color d; deck_createdBy := deck_createdBy d;
     settings := settings d;
     deck_statistics :=
       {| totalCards := totalCards (deck_statistics d) + n;
          totalStudyTime := totalStudyTime (deck_statistics d);
          averageScore := averageScore (deck_statistics d) |} |}.

(** [POST /decks/:deckId/cards]; a valid request carries a question and
    an answer. *)
Definition CreateFlashcard (env : Env) (uid did : ObjectId) (valid : bool)
  (b : CardBody) : Store → Store * Response ObjectId :=
  handler (
    if negb valid then ret (Failure 400 "Validation error")
    else
      let* found := Deck_findOne_owned env did uid in
      match found with
      | None => ret (Failure 404 "Deck not found or not authorized")
      | Some d =>
          let* id :=
            Flashcard_create env
              {| question := default "" (b_question b);
                 answer := default "" (b_answer b);
                 fc_category :=
                   Js.or_string (b_card_category b) (deck_category d);
                 difficulty := default medium (b_difficulty b);
                 tags := default [] (b_tags b);
                 fc_deck := did;
                 fc_createdBy := uid;
                 fc_statistics := default_card_statistics |} in
          run Deck_findByIdAndUpdate env did (inc_totalCards 1) in
          ret (Success 201 id)
      end).

Definition inc_totalViews (c : Flashcard) : Flashcard :=
  {| question := question c; answer := answer c;
     fc_category := fc_category c; difficulty := difficulty c;
     tags := tags c; fc_deck := fc_deck c; fc_createdBy := fc_createdBy c;
     fc_statistics :=
       {| totalViews := totalViews (fc_statistics c) + 1;
          correctAnswers := correctAnswers (fc_statistics c);
          incorrectAnswers := incorrectAnswers (fc_statistics c) |} |}.

(** [GET /:id].  The deck is populated with its name and category only, so
    [flashcard.deck.isPublic] is [undefined] on a deck that exists and a
    TypeError on one that does not; a flashcard has no [isPublic]. *)
Definition GetFlashcard (env : Env) (uid id : ObjectId)
  : Store → Store * Response Flashcard :=
  handler (
    let* found := Flashcard_findById env id in
    match found with
    | None => ret (Failure 404 "Flashcard not found")
    | Some c =>
        let* ds := gets decks in
        let* hasAccess :=
          if (fc_createdBy c =? uid)%N then ret true
          else match ds !! fc_deck c with
               | Some _ => ret false
               | None => throw
               end in
        if negb hasAccess
        then ret (Failure 403 "Not authorized to access this flashcard")
        else
          run Flashcard_findByIdAndUpdate env id inc_totalViews in
          ret (Success 200 c)
    end).

Definition update_card (b : CardBody) (old c : Flashcard) : Flashcard :=
  {| question := Js.or_string (b_question b) (question old);
     answer := Js.or_string (b_answer b) (answer old);
     fc_category := Js.or_string (b_card_category b) (fc_category old);
     difficulty := default (difficulty old) (b_difficulty b);
     tags := default (tags old) (b_tags b);
     fc_deck := fc_deck c; fc_createdBy := fc_createdBy c;
     fc_statistics := fc_statistics c |}.

(** [PUT /:id] *)
Definition UpdateFlashcard (env : Env) (uid id : ObjectId) (valid : bool)
  (b : CardBody) : Store → Store * Response unit :=
  handler (
    if negb valid then ret (Failure 400 "Validation error")
    else
      let* found := Flashcard_findOne_owned env id uid in
      match found with
      | None => ret (Failure 404 "Flashcard not found or not authorized")
      | Some c =>
          run Flashcard_findByIdAndUpdate env id (update_card b c) in
          ret (Success 200 tt)
      end).

(** [DELETE /:id] *)
Definition DeleteFlashcard (env : Env) (uid id : ObjectId)
  : Store → Store * Response unit :=
  handler (
    let* found := Flashcard_findOne_owned env id uid in
    match found with
    | None => ret (Failure 404 "Flashcard not found or not authorized")
    | Some c =>
        run Flashcard_findByIdAndDelete env id in
        run Deck_findByIdAndUpdate env (fc_deck c) (inc_totalCards (-1)) in
        ret (Success 200 tt)
    end).

(** ** The validation chains, and the routes with them *)

(** [POST /decks]: [name] and [category] are required, [description] is
    optional and at most 500 long; all three are trimmed. *)
Definition deck_create_chain (b : DeckBody) : bool * DeckBody :=
  let n := Validator.required (b_name b) in
  let c := Validator.required (b_category b) in
  let d := Validator.optional 0 (Some 500%nat) (b_description b) in
  (n.1 && c.1 && d.1,
   {| b_name := n.2; b_description := d.2; b_category := c.2;
      b_isPublic := b_isPublic b; b_color := b_color b;
      b_settings := b_settings b |}).

(** [PUT /decks/:id]: [name], when it is there, is trimmed and not empty;
    [description], when it is there, is trimmed and at most 500 long. *)
Definition deck_update_chain (b : DeckBody) : bool * DeckBody :=
  let n := Validator.optional 1 None (b_name b) in
  let d := Validator.optional 0 (Some 500%nat) (b_description b) in
  (n.1 && d.1,
   {| b_name := n.2; b_description := d.2; b_category := b_category b;
      b_isPublic := b_isPublic b; b_color := b_color b;
      b_settings := b_settings b |}).

(** [POST /decks/:deckId/cards]: [question] and [answer] are required and
    trimmed; a [difficulty] is one of the three by its type. *)
Definition card_create_chain (b : CardBody) : bool * CardBody :=
  let q := Validator.required (b_question b) in
  let a := Validator.required (b_answer b) in
  (q.1 && a.1,
   {| b_question := q.2; b_answer := a.2;
      b_card_category := b_card_category b;
      b_difficulty := b_difficulty b; b_tags := b_tags b |}).

(** [PUT /:id]: [question] and [answer], when they are there, are trimmed
    and not empty. *)
Definition card_update_chain (b : CardBody) : bool * CardBody :=
  let q := Validator.optional 1 None (b_question b) in
  let a := Validator.optional 1 None (b_answer b) in
  (q.1 && a.1,
   {| b_question := q.2; b_answer := a.2;
      b_card_category := b_card_category b;
      b_difficulty := b_difficulty b; b_tags := b_tags b |}).

(** The four routes as they are registered: the chain, then the handler. *)
Definition PostDeck (env : Env) (uid : ObjectId) (b : DeckBody)
  : Store → Store * Response ObjectId :=
  let c := deck_create_chain b in CreateDeck env uid c.1 c.2.

Definition PutDeck (env : Env) (uid id : ObjectId) (b : DeckBody)
  : Store → Store * Response unit :=
  let c := deck_update_chain b in UpdateDeck env uid id c.1 c.2.

Definition PostFlashcard (env : Env) (uid did : ObjectId) (b : CardBody)
  : Store → Store * Response ObjectId :=
  let c := card_create_chain b in CreateFlashcard env uid did c.1 c.2.

Definition PutFlashcard (env : Env) (uid id : ObjectId) (b : CardBody)
  : Store → Store * Response unit :=
  let c := card_update_chain b in UpdateFlashcard env uid id c.1 c.2.

(** ** The statistics route *)

Record Overview := {
  totalDecks : nat;
  totalFlashcards : nat;
  totalSessions : nat;
  ov_totalStudyTime : option Z;
  ov_averageScore : option Z
}.

Record Report := {
  overview : Overview;
  recentActivity : list (ObjectId * StudySession * option (string * string))
}.

(** The filter [{ user, isCompleted: true, createdAt: { $gte: since } }];
    without [since] there is no condition on [createdAt]. *)
Definition completed_since (uid : ObjectId) (since : option Z)
  (p : ObjectId * StudySession) : Prop :=
  user p.2 = uid ∧ isCompleted p.2 = true ∧
  match since with Some t => t ≤ createdAt p.2 | None => True end.

#[global] Instance completed_since_dec uid since p :
  Decision (completed_since uid since p).
Proof. unfold completed_since. destruct since; apply _. Defined.

Definition StudySession_find (env : Env) (uid : ObjectId) (since : option Z)
  : M (list (ObjectId * StudySession)) :=
  run await env StudySessionM op_find in
  let* ss := gets sessions in
  ret (map_to_list (filter (completed_since uid since) ss)).

(** [Deck.countDocuments({ createdBy })] and
    [Flashcard.countDocuments({ createdBy })] *)
Definition Deck_countDocuments (env : Env) (uid : ObjectId) : M nat :=
  run await env DeckM op_countDocuments in
  let* ds := gets decks in
  ret (size (filter (λ p : N * Deck, deck_createdBy p.2 = uid) ds)).

Definition Flashcard_countDocuments (env : Env) (uid : ObjectId) : M nat :=
  run await env FlashcardM op_countDocuments in
  let* cs := gets cards in
  ret (size (filter (λ p : N * Flashcard, fc_createdBy p.2 = uid) cs)).

(** [studySessions.reduce((acc, session) => acc + session.totalDuration, 0)];
    adding the [undefined] of a missing duration gives [NaN], here [None]. *)
Definition sum_totalDuration (l : list (ObjectId * StudySession)) : option Z :=
  foldl (λ acc p, a ← acc; d ← totalDuration p.2; Some (a + d)) (Some 0) l.

Definition sum_percentage (l : list (ObjectId * StudySession)) : Z :=
  foldl (λ acc p, acc + percentage (score p.2)) 0 l.

(** [totalSessions > 0 ? Math.round(sum / totalSessions) : 0] *)
Definition average_score (l : list (ObjectId * StudySession)) : option Z :=
  if (0 <? length l)%nat
  then Js.Math_round
         (Js.div (Js.of_Z (sum_percentage l))
                 (Js.of_Z (Z.of_nat (length l))))
  else Some 0.

(** [.sort({ createdAt: -1 })]: newest first, sessions created at the same
    time in the order the collection gives them. *)
Fixpoint insert_newest (p : ObjectId * StudySession)
  (l : list (ObjectId * StudySession)) : list (ObjectId * StudySession) :=
  match l with
  | [] => [p]
  | q :: l' =>
      if createdAt q.2 <=? createdAt p.2 then p :: q :: l'
      else q :: insert_newest p l'
  end.

Definition sort_newest (l : list (ObjectId * StudySession))
  : list (ObjectId * StudySession) :=
  foldr insert_newest [] l.

(** [.populate('deck', 'name category')] *)
Definition populate_deck (ds : gmap N Deck) (p : ObjectId * StudySession)
  : ObjectId * StudySession * option (string * string) :=
  (p, (λ d, (name d, deck_category d)) <$> ds !! deck p.2).

(** The lower bound on [createdAt] for a [range] query parameter:
    [None] when the range is ["all"]; otherwise
    [new Date(Date.now() - days * 24 * 60 * 60 * 1000)] with
    [days = parseInt(timeRange.replace('d', ''))], which is an Invalid Date
    (the inner [None]) when [days] is [NaN] or the time is out of range. *)
Definition timeRange_of (range : option string) : string :=
  Js.or_string range "7d".

Definition dateFilter (now : Z) (timeRange : string) : option (option Z) :=
  if String.eqb timeRange "all" then None
  else
    Some (days ← Js.parseInt (Js.replace "d" "" timeRange);
          Js.Date_of (now - days * 24 * 60 * 60 * 1000)).

(** The report over the completed sessions of [uid] created since
    [since]. *)
Definition report_since (env : Env) (uid : ObjectId) (since : option Z)
  : M Report :=
  let* studySessions := StudySession_find env uid since in
  let* nDecks := Deck_countDocuments env uid in
  let* nCards := Flashcard_countDocuments env uid in
  let* completed := StudySession_find env uid None in
  let* ds := gets decks in
  ret {| overview :=
           {| totalDecks := nDecks;
              totalFlashcards := nCards;
              totalSessions := length studySessions;
              ov_totalStudyTime :=
                (λ t, t / 60) <$> sum_totalDuration studySessions;
              ov_averageScore := average_score studySessions |};
         recentActivity :=
           populate_deck ds <$> take 5 (sort_newest completed) |}.

(** The handler that is registered for [GET /statistics].  A query whose
    date operand is an Invalid Date is rejected when Mongoose casts it.
    Which requests the router hands to this handler is settled below
    ([dispatch]). *)
Definition GetUserStatistics (env : Env) (uid : ObjectId)
  (range : option string) : Store → Store * Response Report :=
  handler (
    match dateFilter (now env) (timeRange_of range) with
    | Some None => throw
    | Some (Some since) =>
        let* r := report_since env uid (Some since) in ret (Success 200 r)
    | None =>
        let* r := report_since env uid None in ret (Success 200 r)
    end).

(** ** The router *)

Inductive Verb := GET | POST | PUT | DELETE.

#[global] Instance Verb_eq_dec : EqDecision Verb.
Proof. solve_decision. Defined.

(** A piece of a route's path: a literal, or a parameter such as [:id]. *)
Inductive Piece := Lit (s : string) | Param.

(** The routes of the file, by the handler they lead to. *)
Inductive Route :=
| DecksR | CreateDeckR | GetDeckR | UpdateDeckR | DeleteDeckR | CardsR
| CreateFlashcardR | GetFlashcardR | UpdateFlashcardR | DeleteFlashcardR
| StartSessionR | RecordOutcomeR | CompleteSessionR | GetUserStatisticsR.

#[global] Instance Route_eq_dec : EqDecision Route.
Proof. solve_decision. Defined.

(** The calls [router.get], [router.post], [router.put] and
    [router.delete] of the file, in the order in which they are made. *)
Definition router : list (Verb * list Piece * Route) :=
  [ (GET, [Lit "decks"], DecksR);
    (POST, [Lit "decks"], CreateDeckR);
    (GET, [Lit "decks"; Param], GetDeckR);
    (PUT, [Lit "decks"; Param], UpdateDeckR);
    (DELETE, [Lit "decks"; Param], DeleteDeckR);
    (GET, [Lit "decks"; Param; Lit "cards"], CardsR);
    (POST, [Lit "decks"; Param; Lit "cards"], CreateFlashcardR);
    (GET, [Param], GetFlashcardR);
    (PUT, [Param], UpdateFlashcardR);
    (DELETE, [Param], DeleteFlashcardR);
    (POST, [Lit "study"; Param], StartSessionR);
    (PUT, [Lit "study"; Param], RecordOutcomeR);
    (PUT, [Lit "study"; Param; Lit "complete"], CompleteSessionR);
    (GET, [Lit "statistics"], GetUserStatisticsR) ].

Definition to_lower (c : ascii) : ascii :=
  let n := N_of_ascii c in
  if ((65 <=? n) && (n <=? 90))%N then ascii_of_N (n + 32) else c.

Fixpoint lower (s : string) : string :=
  match s with
  | EmptyString => EmptyString
  | String c s' => String (to_lower c) (lower s')
  end.

(** Whether a path, cut at its slashes, fits the path of a route: a
    literal fits the same text in either letter case, a parameter fits
    any segment that is not empty. *)
Fixpoint matches (pattern : list Piece) (path : list string) : bool :=
  match pattern, path with
  | [], [] => true
  | Lit s :: pattern', segment :: path' =>
      String.eqb (lower segment) (lower s) && matches pattern' path'
  | Param :: pattern', segment :: path' =>
      negb (String.eqb segment "") && matches pattern' path'
  | _, _ => false
  end.

(** The route that answers a request: the first one, in the order of
    registration, whose verb and path fit.  No handler of the file calls
    [next], so no later route sees the request. *)
Definition dispatch (v : Verb) (path : list string) : option Route :=
  snd <$> find (λ r, bool_decide (r.1.1 = v) && matches r.1.2 path) router.

(** The [_id] that 24 hexadecimal digits stand for. *)
Definition ObjectId_of (s : string) : option ObjectId :=
  if Validator.all_hex s && (String.length s =? 24)%nat
  then Z.to_N <$> Js.parse_digits 16 None s
  else None.

(** [GET /:id] as it is registered, the parameter being any text:
    [isMongoId] is checked, and an [id] that passes the check without being
    24 hexadecimal digits makes [findById] reject. *)
Definition GetFlashcard_at (env : Env) (uid : ObjectId) (id : string)
  (st : Store) : Store * Response Flashcard :=
  if negb (Validator.isMongoId id) then (st, Failure 400 "Validation error")
  else
    match ObjectId_of id with
    | Some n => GetFlashcard env uid n st
    | None => (st, Failure 500 "Server error")
    end.

Definition map_data {A B} (f : A → B) (r : Response A) : Response B :=
  match r with
  | Success k a => Success k (f a)
  | Failure k m => Failure k m
  end.

(** What [GET /statistics?range=...] is answered: by the handler of
    [GET /:id] with [statistics] for the [id] when the router hands the
    request to that route, by the statistics handler otherwise. *)
Definition GetStatistics (env : Env) (uid : ObjectId) (range : option string)
  (st : Store) : Store * Response (Flashcard + Report) :=
  match dispatch GET ["statistics"] with
  | Some GetFlashcardR =>
      prod_map id (map_data inl) (GetFlashcard_at env uid "statistics" st)
  | _ => prod_map id (map_data inr) (GetUserStatistics env uid range st)
  end.

(** ** Sequences of requests *)

(** An environment in which every store call resolves. *)
Definition quiet (env : Env) : Prop := ∀ m op, rejects env m op = false.

Definition calm (t : Z) (id : ObjectId)
  (f : list (ObjectId * Flashcard) → list (ObjectId * Flashcard)) : Env :=
  {| now := t; newId := id; rejects := no_rejects; sort_random := f |}.

Definition is_success {A} (r : Response A) : bool :=
  match r with Success _ _ => true | Failure _ _ => false end.

Record Submission := {
  sub_card : ObjectId;
  sub_isCorrect : bool;
  sub_timeSpent : Z
}.

(** The outcome submissions [calls] made one after the other by [uid] to
    session [sid]: the final store, and how many of the submissions that
    got a success response were correct and how many incorrect. *)
Fixpoint RecordOutcomes (uid sid : ObjectId)
  (calls : list (Env * Submission)) (st : Store) : Store * (N * N) :=
  match calls with
  | [] => (st, (0, 0)%N)
  | (env, sub) :: rest =>
      let '(st1, r) :=
        RecordOutcome env uid sid (sub_card sub) (sub_isCorrect sub)
                      (sub_timeSpent sub) st in
      let '(st2, (k, m)) := RecordOutcomes uid sid rest st1 in
      (st2,
       if is_success r
       then if sub_isCorrect sub then (N.succ k, m) else (k, N.succ m)
       else (k, m))
  end.

Definition total_attempts (s : StudySession) : N :=
  foldr (λ c acc, (attempts c + acc)%N) 0%N (flashcards s).

(** Every request that can write to the database, and the request for
    the statistics; the listings and [GET /decks/:id] only read.  A
    request holds what its handler is given: [valid] and the body are those
    that the validation chain of the route leaves, and any [valid] with
    any body is a request here. *)
Inductive Request :=
| CreateDeckReq (uid : ObjectId) (valid : bool) (b : DeckBody)
| UpdateDeckReq (uid id : ObjectId) (valid : bool) (b : DeckBody)
| DeleteDeckReq (uid id : ObjectId)
| CreateFlashcardReq (uid did : ObjectId) (valid : bool) (b : CardBody)
| GetFlashcardReq (uid id : ObjectId)
| UpdateFlashcardReq (uid id : ObjectId) (valid : bool) (b : CardBody)
| DeleteFlashcardReq (uid id : ObjectId)
| StartSessionReq (uid did : ObjectId)
| RecordOutcomeReq (uid sid fid : ObjectId) (isCorrect : bool) (timeSpent : Z)
| CompleteSessionReq (uid sid : ObjectId)
| GetUserStatisticsReq (uid : ObjectId) (range : option string).

Definition serve (st : Store) (c : Env * Request) : Store :=
  let env := c.1 in
  match c.2 with
  | CreateDeckReq uid valid b => (CreateDeck env uid valid b st).1
  | UpdateDeckReq uid id valid b => (UpdateDeck env uid id valid b st).1
  | DeleteDeckReq uid id => (DeleteDeck env uid id st).1
  | CreateFlashcardReq uid did valid b =>
      (CreateFlashcard env uid did valid b st).1
  | GetFlashcardReq uid id => (GetFlashcard env uid id st).1
  | UpdateFlashcardReq uid id valid b =>
      (UpdateFlashcard env uid id valid b st).1
  | DeleteFlashcardReq uid id => (DeleteFlashcard env uid id st).1
  | StartSessionReq uid did => (StartSession env uid did st).1
  | RecordOutcomeReq uid sid fid b t =>
      (RecordOutcome env uid sid fid b t st).1
  | CompleteSessionReq uid sid => (CompleteSession env uid sid st).1
  | GetUserStatisticsReq uid range => (GetStatistics env uid range st).1
  end.

(** The number of flashcards that reference deck [did]. *)
Definition live_count (did : ObjectId) (st : Store) : nat :=
  size (filter (in_deck did) (cards st)).

(** Every deck records as [totalCards] the number of flashcards that
    reference it, and no flashcard references a deck that is not there. *)
Definition cards_counted (st : Store) : Prop :=
  ∀ did, Z.of_nat (live_count did st) =
         match decks st !! did with
         | Some d => totalCards (deck_statistics d)
         | None => 0
         end.

(** The branch of [RecordOutcome] on [isCorrect], on the score. *)
Definition tally (b : bool) (sc : Score) : Score :=
  if b then inc_correct sc else inc_incorrect sc.

(** ** What the specification says, in its own words *)

(** [round(100 * k / (k + m))], a half rounding up. *)
Definition spec_percentage (k m : N) : Z :=
  let n := Z.of_N (k + m) in
  (2 * (100 * Z.of_N k) + n) / (2 * n).

(** ** Sample data *)

Module Sample.

Definition alice : ObjectId := 7%N.
Definition math : ObjectId := 1%N.
Definition session : ObjectId := 500%N.

Definition card (d u : ObjectId) : Flashcard :=
  {| question := "2 + 2"; answer := "4"; fc_category := "sums";
     difficulty := medium; tags := []; fc_deck := d; fc_createdBy := u;
     fc_statistics := default_card_statistics |}.

Definition deck_of (u : ObjectId) (n : Z) : Deck :=
  {| name := "Math"; description := None; deck_category := "sums";
     isPublic := false; color := "#3B82F6"; deck_createdBy := u;
     settings := default_settings;
     deck_statistics :=
       {| totalCards := n; totalStudyTime := 0; averageScore := 0 |} |}.

(** Cards 100, 101, ... of the deck. *)
Definition cards_of (n : nat) : gmap N Flashcard :=
  list_to_map ((λ i, (N.of_nat i + 100, card math alice)%N) <$> seq 0 n).

Definition store_of (n : nat) : Store :=
  {| decks := {[ math := deck_of alice (Z.of_nat n) ]};
     cards := cards_of n; sessions := ∅ |}.

Definition env_at (t : Z) : Env := calm t session id.

Definition started (n : nat) : Store :=
  (StartSession (env_at 0) alice math (store_of n)).1.

Definition answers (b : bool) (from n : nat) : list (Env * Submission) :=
  (λ i, (env_at 1000,
         {| sub_card := N.of_nat i + 100; sub_isCorrect := b;
            sub_timeSpent := 5 |})) <$> seq from n.

(** The session that [started 1] holds. *)
Definition one_card : StudySession :=
  new_session 0 alice math
    [ {| flashcard := 100; isCorrect := None; timeSpent := 0;
         attempts := 0 |} ].

(** A one-card session, completed five seconds after its start. *)
Definition done_once : Store :=
  (CompleteSession (env_at 5000) alice session (started 1)).1.

(** The flashcard store is down: its updates reject. *)
Definition card_updates_reject : Env :=
  {| now := 1000; newId := session;
     rejects := λ m op,
       match m, op with
       | FlashcardM, op_findByIdAndUpdate => true
       | _, _ => false
       end;
     sort_random := id |}.

Definition ten_days : Z := 10 * 24 * 60 * 60 * 1000.

Definition deck_body : DeckBody :=
  {| b_name := Some "Math"; b_description := None;
     b_category := Some "sums"; b_isPublic := None; b_color := None;
     b_settings := None |}.

Definition card_body : CardBody :=
  {| b_question := Some "2 + 2"; b_answer := Some "4";
     b_card_category := None; b_difficulty := None; b_tags := None |}.

(** A deck, two cards, and the first card deleted again. *)
Definition history : list (Env * Request) :=
  [ (calm 0 math id, CreateDeckReq alice true deck_body);
    (calm 1 100 id, CreateFlashcardReq alice math true card_body);
    (calm 2 101 id, CreateFlashcardReq alice math true card_body);
    (calm 3 0 id, DeleteFlashcardReq alice 100) ].

End Sample.

(** ** More of the routes *)

(** [Flashcard.countDocuments({ deck })] *)
Definition Flashcard_countDocuments_deck (env : Env) (did : ObjectId)
  : M nat :=
  run await env FlashcardM op_countDocuments in
  let* cs := gets cards in
  ret (size (filter (in_deck did) cs)).

(** [GET /decks/:id]: the deck, as far as the caller may see it, with the
    number of its flashcards.  The names that [populate] copies from the
    owner's user document are not part of the answer here. *)
Definition GetDeck (env : Env) (uid id : ObjectId)
  : Store → Store * Response (Deck * nat) :=
  handler (
    let* found := Deck_findOne_visible env id uid in
    match found with
    | None => ret (Failure 404 "Deck not found")
    | Some d =>
        let* flashcardCount := Flashcard_countDocuments_deck env id in
        ret (Success 200 (d, flashcardCount))
    end).

(** [res.status(k)] *)
Definition status {A} (r : Response A) : nat :=
  match r with Success k _ | Failure k _ => k end.

(** The user a request is made by. *)
Definition requester (r : Request) : ObjectId :=
  match r with
  | CreateDeckReq uid _ _ | UpdateDeckReq uid _ _ _ | DeleteDeckReq uid _
  | CreateFlashcardReq uid _ _ _ | GetFlashcardReq uid _
  | UpdateFlashcardReq uid _ _ _ | DeleteFlashcardReq uid _
  | StartSessionReq uid _ | RecordOutcomeReq uid _ _ _ _
  | CompleteSessionReq uid _ | GetUserStatisticsReq uid _ => uid
  end.

(** The store a request leaves and the status it is answered with. *)
Definition respond (st : Store) (c : Env * Request) : Store * nat :=
  let env := c.1 in
  match c.2 with
  | CreateDeckReq uid valid b =>
      prod_map id status (CreateDeck env uid valid b st)
  | UpdateDeckReq uid id' valid b =>
      prod_map id status (UpdateDeck env uid id' valid b st)
  | DeleteDeckReq uid id' => prod_map id status (DeleteDeck env uid id' st)
  | CreateFlashcardReq uid did valid b =>
      prod_map id status (CreateFlashcard env uid did valid b st)
  | GetFlashcardReq uid id' =>
      prod_map id status (GetFlashcard env uid id' st)
  | UpdateFlashcardReq uid id' valid b =>
      prod_map id status (UpdateFlashcard env uid id' valid b st)
  | DeleteFlashcardReq uid id' =>
      prod_map id status (DeleteFlashcard env uid id' st)
  | StartSessionReq uid did =>
      prod_map id status (StartSession env uid did st)
  | RecordOutcomeReq uid sid fid b t =>
      prod_map id status (RecordOutcome env uid sid fid b t st)
  | CompleteSessionReq uid sid =>
      prod_map id status (CompleteSession env uid sid st)
  | GetUserStatisticsReq uid range =>
      prod_map id status (GetStatistics env uid range st)
  end.

(** The fields of a deck that only its owner can change. *)
Definition same_profile (d d' : Deck) : Prop :=
  name d' = name d ∧ description d' = description d ∧
  deck_category d' = deck_category d ∧ isPublic d' = isPublic d ∧
  color d' = color d ∧ deck_createdBy d' = deck_createdBy d ∧
  settings d' = settings d.

(** What every route keeps of a stored session, and what can only grow. *)
Definition continues (s s' : StudySession) : Prop :=
  user s' = user s ∧ deck s' = deck s ∧ startTime s' = startTime s ∧
  createdAt s' = createdAt s ∧
  flashcard <$> flashcards s' = flashcard <$> flashcards s ∧
  (correct (score s) ≤ correct (score s'))%N ∧
  (incorrect (score s) ≤ incorrect (score s'))%N ∧
  (total_attempts s ≤ total_attempts s')%N ∧
  (isCompleted s = true → isCompleted s' = true).

(** The comparator-driven sort returns its input in some order. *)
Definition fair (env : Env) : Prop := ∀ l, sort_random env l ≡ₚ l.

(** A card record is untried exactly when it is unanswered. *)
Definition card_sound (c : SessionCard) : Prop :=
  attempts c = 0%N ↔ isCorrect c = None.

(** A session has cards, its tallies add up to the attempts on its cards,
    and it has an end time and a duration once it is completed. *)
Definition session_sound (s : StudySession) : Prop :=
  flashcards s ≠ [] ∧
  (correct (score s) + incorrect (score s))%N = total_attempts s ∧
  Forall card_sound (flashcards s) ∧
  (isCompleted s = true → is_Some (endTime s) ∧ is_Some (totalDuration s)).

(** Every session is sound and on a deck that exists. *)
Definition sessions_sound (st : Store) : Prop :=
  ∀ sid s, sessions st !! sid = Some s →
    session_sound s ∧ is_Some (decks st !! deck s).

(** Every flashcard is in a deck that exists and belongs to the
    flashcard's creator. *)
Definition cards_owned (st : Store) : Prop :=
  ∀ id c, cards st !! id = Some c →
    ∃ d, decks st !! fc_deck c = Some d ∧ deck_createdBy d = fc_createdBy c.

(** A body field that [||] passes over: left out or the empty string. *)
Definition falsy (o : option string) : Prop := o = None ∨ o = Some "".

(** A body field that is left out or holds white space only. *)
Definition blank (o : option string) : Prop :=
  ∀ s, o = Some s → Validator.trim s = "".

(** A completed session has its end time and its duration, the whole
    seconds from its start to its end. *)
Definition timed (s : StudySession) : Prop :=
  isCompleted s = true →
  ∃ e, endTime s = Some e ∧
       totalDuration s = Some ((e - startTime s) / 1000).

Definition sessions_timed (st : Store) : Prop :=
  ∀ sid s, sessions st !! sid = Some s → timed s.

(** Newest first. *)
Definition newer_first (p q : N * StudySession) : Prop :=
  createdAt q.2 ≤ createdAt p.2.

(** The report the handler builds when its store calls resolve. *)
Definition report_of (st : Store) (uid : ObjectId) (since : option Z)
  : Report :=
  let studySessions :=
    map_to_list (filter (completed_since uid since) (sessions st)) in
  {| overview :=
       {| totalDecks :=
            size (filter (λ p : N * Deck, deck_createdBy p.2 = uid)
                    (decks st));
          totalFlashcards :=
            size (filter (λ p : N * Flashcard, fc_createdBy p.2 = uid)
                    (cards st));
          totalSessions := length studySessions;
          ov_totalStudyTime :=
            (λ t, t / 60) <$> sum_totalDuration studySessions;
          ov_averageScore := average_score studySessions |};
     recentActivity :=
       populate_deck (decks st) <$>
         take 5 (sort_newest
                   (map_to_list
                      (filter (completed_since uid None) (sessions st)))) |}.

(** One window lies within another. *)
Definition within (since1 since2 : option Z) : Prop :=
  match since1, since2 with
  | _, None => True
  | Some a, Some b => b ≤ a
  | None, Some _ => False
  end.

(** ** A deck, studied *)

Module Scene.

Definition bob : ObjectId := 8%N.

(** Alice's deck with the one card that is left of it. *)
Definition library : Store := foldl serve empty_store Sample.history.

(** Alice opens a session on the deck ... *)
Definition opening : list (Env * Request) :=
  Sample.history ++
  [ (calm 10 Sample.session id, StartSessionReq Sample.alice Sample.math) ].

Definition opened : Store := foldl serve empty_store opening.

(** ... answers the card and completes the session. *)
Definition studied : list (Env * Request) :=
  opening ++
  [ (calm 20 0 id,
     RecordOutcomeReq Sample.alice Sample.session 101 true 5);
    (calm 30000 0 id, CompleteSessionReq Sample.alice Sample.session) ].

Definition shelf : Store := foldl serve empty_store studied.

Definition at_noon : Env := calm 43200000 900 id.

(** Environments in which one kind of store call rejects. *)
Definition saves_reject : Env :=
  {| now := 20; newId := 900;
     rejects := λ m op,
       match m, op with StudySessionM, op_save => true | _, _ => false end;
     sort_random := id |}.

Definition deck_updates_reject : Env :=
  {| now := 30000; newId := 102;
     rejects := λ m op,
       match m, op with
       | DeckM, op_findByIdAndUpdate => true
       | _, _ => false
       end;
     sort_random := id |}.

Definition session_deletes_reject : Env :=
  {| now := 40000; newId := 900;
     rejects := λ m op,
       match m, op with
       | StudySessionM, op_deleteMany => true
       | _, _ => false
       end;
     sort_random := id |}.

Definition blank_body : DeckBody :=
  {| b_name := None; b_description := Some "  "; b_category := None;
     b_isPublic := None; b_color := Some ""; b_settings := None |}.

Definition blank_name : DeckBody :=
  {| b_name := Some " "; b_description := None; b_category := None;
     b_isPublic := None; b_color := None; b_settings := None |}.

(** A deck is created, and then a flashcard while the deck updates
    reject. *)
Definition cut_short : list (Env * Request) :=
  [ (calm 0 Sample.math id,
     CreateDeckReq Sample.alice true Sample.deck_body);
    (deck_updates_reject,
     CreateFlashcardReq Sample.alice Sample.math true Sample.card_body) ].

End Scene.

(** * Properties *)

Ltac run_handler :=
  unfold handler, bind, gets, modify, await, ret, throw.

Ltac run_quiet Hq :=
  run_handler; simpl; rewrite ?Hq; simpl.

(** The request for the statistics, taken to the route that answers it. *)
Ltac route_statistics :=
  repeat match goal with
    | |- context [GetStatistics ?e ?u ?r ?s] =>
        change (GetStatistics e u r s)
          with (s, @Failure (Flashcard + Report) 400 "Validation error")
    end.

Lemma calm_quiet t id f : quiet (calm t id f).
Proof. intros m op. reflexivity. Defined.

(** ** Looking a card up in the snapshot *)

Lemma findIndex_None fid cs :
  (∀ c, c ∈ cs → flashcard c ≠ fid) → findIndex fid cs = None.
Proof.
  intros H. unfold findIndex.
  destruct (list_find _ cs) as [[i c]|] eqn:E; [|done].
  apply list_find_Some in E as (Hi & Hc & _).
  exfalso. apply (H c); [|done]. by eapply list_elem_of_lookup_2.
Qed.

Lemma findIndex_Some fid cs i :
  findIndex fid cs = Some i →
  ∃ c, cs !! i = Some c ∧ flashcard c = fid.
Proof.
  unfold findIndex. destruct (list_find _ cs) as [[j c]|] eqn:E; [|done].
  intros [= <-]. apply list_find_Some in E as (Hi & Hc & _). eauto.
Qed.

(** ** The session handlers, case by case *)

Lemma StudySession_findOne_found env uid sid st s :
  rejects env StudySessionM op_findOne = false →
  sessions st !! sid = Some s → user s = uid →
  StudySession_findOne env sid uid st = (st, Some (Some s)).
Proof.
  intros Hr Hs Hu. unfold StudySession_findOne. run_handler.
  rewrite Hr, Hs. by rewrite <- Hu, N.eqb_refl.
Qed.

Lemma StudySession_findOne_inv env uid sid st st' o :
  StudySession_findOne env sid uid st = (st', Some o) →
  st' = st ∧ rejects env StudySessionM op_findOne = false ∧
  match o with
  | Some s => sessions st !! sid = Some s ∧ user s = uid
  | None => ∀ s, sessions st !! sid = Some s → user s ≠ uid
  end.
Proof.
  unfold StudySession_findOne. run_handler.
  destruct (rejects env StudySessionM op_findOne); [done|].
  intros [= <- <-]. split; [done|]. split; [done|].
  destruct (sessions st !! sid) as [s|]; [|done].
  destruct (N.eqb_spec (user s) uid); [done|]. by intros ? [= <-].
Qed.

(** What [RecordOutcome] does to a session that holds the card. *)
Lemma RecordOutcome_found env uid sid fid b t st s i :
  rejects env StudySessionM op_findOne = false →
  sessions st !! sid = Some s → user s = uid →
  findIndex fid (flashcards s) = Some i →
  RecordOutcome env uid sid fid b t st =
  if rejects env FlashcardM op_findByIdAndUpdate
  then (st, Failure 500 "Server error")
  else
    let st1 :=
      set_cards (alter (if b then inc_correctAnswers
                        else inc_incorrectAnswers) fid) st in
    match percentage_of (tally b (score s)) with
    | None => (st1, Failure 500 "Server error")
    | Some p =>
        let s' :=
          with_progress s (alter (answer_card b t) i (flashcards s))
            {| correct := correct (tally b (score s));
               incorrect := incorrect (tally b (score s));
               percentage := p |} in
        if rejects env StudySessionM op_save
        then (st1, Failure 500 "Server error")
        else (set_sessions <[sid := s']> st1, Success 200 s')
    end.
Proof.
  intros Hr Hs Hu Hi. unfold RecordOutcome, handler, bind at 1.
  rewrite (StudySession_findOne_found _ _ _ _ s) by done.
  rewrite Hi. unfold Flashcard_findByIdAndUpdate, StudySession_save.
  run_handler.
  destruct b; simpl;
    destruct (rejects env FlashcardM op_findByIdAndUpdate); simpl; try done;
    destruct (percentage_of _); simpl; try done;
    destruct (rejects env StudySessionM op_save); done.
Qed.


Lemma total_attempts_alter b t i c (cs : list SessionCard) :
  cs !! i = Some c →
  foldr (λ c acc, (attempts c + acc)%N) 0%N (alter (answer_card b t) i cs)
  = N.succ (foldr (λ c acc, (attempts c + acc)%N) 0%N cs).
Proof.
  revert i. induction cs as [|c' cs IH]; intros [|i] Hi; try done.
  - injection Hi as ->. simpl. lia.
  - specialize (IH i Hi). unfold alter in *. simpl. rewrite IH. lia.
Qed.

Lemma CompleteSession_found env uid sid st s :
  rejects env StudySessionM op_findOne = false →
  sessions st !! sid = Some s → user s = uid →
  CompleteSession env uid sid st =
  let s' := completed_at (now env) s in
  if rejects env StudySessionM op_save
  then (st, Failure 500 "Server error")
  else
    let st1 := set_sessions <[sid := s']> st in
    if rejects env DeckM op_findByIdAndUpdate
    then (st1, Failure 500 "Server error")
    else (set_decks
            (alter (inc_study (elapsed_seconds (now env) s / 60)
                              (percentage (score s))) (deck s)) st1,
          Success 200 s').
Proof.
  intros Hr Hs Hu. unfold CompleteSession, handler, bind at 1.
  rewrite (StudySession_findOne_found _ _ _ _ s) by done.
  unfold StudySession_save, Deck_findByIdAndUpdate. run_handler.
  destruct (rejects env StudySessionM op_save); simpl; try done.
  destruct (rejects env DeckM op_findByIdAndUpdate); done.
Qed.

Lemma report_since_quiet env uid since st :
  quiet env →
  ∃ r, report_since env uid since st = (st, Some r) ∧
    totalSessions (overview r)
    = size (filter (completed_since uid since) (sessions st)).
Proof.
  intros Hq. unfold report_since, StudySession_find, Deck_countDocuments,
    Flashcard_countDocuments.
  run_quiet Hq. eexists. split; [done|]. simpl. apply length_map_to_list.
Qed.

(** ** Counting the flashcards of a deck *)

Section live_count.
Implicit Types (cs : gmap N Flashcard) (c : Flashcard).

Lemma count_insert_fresh did id c cs :
  cs !! id = None →
  size (filter (in_deck did) (<[id := c]> cs)) =
  if decide (fc_deck c = did) then S (size (filter (in_deck did) cs))
  else size (filter (in_deck did) cs).
Proof.
  intros Hid. case_decide as Hd.
  - rewrite map_filter_insert_True by done.
    apply map_size_insert_None, map_lookup_filter_None_2. by left.
  - rewrite map_filter_insert_not'; [done|done|]. by rewrite Hid.
Qed.

Lemma count_delete did id c cs :
  cs !! id = Some c →
  size (filter (in_deck did) cs) =
  if decide (fc_deck c = did)
  then S (size (filter (in_deck did) (delete id cs)))
  else size (filter (in_deck did) (delete id cs)).
Proof.
  intros Hid. rewrite map_filter_delete. case_decide as Hd.
  - rewrite map_size_delete_Some;
      [|by eapply mk_is_Some, map_lookup_filter_Some_2].
    assert (size (filter (in_deck did) cs) ≠ 0%nat); [|lia].
    apply map_size_ne_0_lookup_2 with id.
    by eapply mk_is_Some, map_lookup_filter_Some_2.
  - rewrite map_size_delete_None; [done|].
    apply map_lookup_filter_None_2. right. intros c' Hc'.
    rewrite Hid in Hc'. by injection Hc' as <-.
Qed.

Lemma count_alter did (f : Flashcard → Flashcard) id cs :
  (∀ c, fc_deck (f c) = fc_deck c) →
  size (filter (in_deck did) (alter f id cs)) =
  size (filter (in_deck did) cs).
Proof.
  intros Hf. destruct (cs !! id) as [c|] eqn:Hid.
  - assert (alter f id cs = <[id := f c]> (delete id cs)) as ->.
    { apply map_eq. intros j. destruct (decide (id = j)) as [<-|].
      - by rewrite lookup_alter_eq, lookup_insert_eq, Hid.
      - by rewrite lookup_alter_ne, lookup_insert_ne, lookup_delete_ne. }
    rewrite count_insert_fresh by apply lookup_delete_eq.
    rewrite (count_delete did id c cs Hid), Hf. done.
  - f_equal. f_equal. apply map_eq. intros j.
    destruct (decide (id = j)) as [<-|].
    + by rewrite lookup_alter_eq, Hid.
    + by rewrite lookup_alter_ne.
Qed.

Lemma count_deleteMany did id cs :
  size (filter (in_deck did) (filter (λ p, ¬ in_deck id p) cs)) =
  if decide (did = id) then 0%nat else size (filter (in_deck did) cs).
Proof.
  rewrite map_filter_filter. case_decide as Hd.
  - subst. apply map_size_empty_iff, map_empty. intros j.
    apply map_lookup_filter_None_2. right. intros c _ [? ?]. done.
  - f_equal. apply map_filter_ext. intros j c _. unfold in_deck. simpl.
    split; [by intros [? ?]|]. intros H. split; [done|congruence].
Qed.
End live_count.

(** ** Every route keeps the cards counted *)

Lemma counted_decks_alter (f : Deck → Deck) id st :
  (∀ d, totalCards (deck_statistics (f d)) = totalCards (deck_statistics d)) →
  cards_counted st → cards_counted (set_decks (alter f id) st).
Proof.
  intros Hf Hinv did. specialize (Hinv did). unfold live_count in *. simpl.
  rewrite Hinv. destruct (decide (id = did)) as [<-|].
  - rewrite lookup_alter_eq.
    destruct (decks st !! id); simpl; [by rewrite Hf|done].
  - by rewrite lookup_alter_ne.
Qed.

Lemma counted_cards_alter (f : Flashcard → Flashcard) id st :
  (∀ c, fc_deck (f c) = fc_deck c) →
  cards_counted st → cards_counted (set_cards (alter f id) st).
Proof.
  intros Hf Hinv did. specialize (Hinv did). unfold live_count in *. simpl.
  by rewrite count_alter.
Qed.

Lemma counted_sessions f st :
  cards_counted st → cards_counted (set_sessions f st).
Proof. intros Hinv did. apply Hinv. Qed.

Lemma CreateDeck_counted env uid valid b st :
  quiet env → cards_counted st →
  cards_counted (CreateDeck env uid valid b st).1.
Proof.
  intros Hq Hinv. unfold CreateDeck, Deck_create.
  destruct valid; run_quiet Hq; [|done].
  destruct (decks st !! newId env) eqn:Hid; simpl; [done|].
  intros did. specialize (Hinv did). unfold live_count in *. simpl.
  rewrite Hinv. destruct (decide (newId env = did)) as [<-|].
  - by rewrite lookup_insert_eq, Hid.
  - by rewrite lookup_insert_ne.
Qed.

Lemma UpdateDeck_counted env uid id valid b st :
  quiet env → cards_counted st →
  cards_counted (UpdateDeck env uid id valid b st).1.
Proof.
  intros Hq Hinv.
  unfold UpdateDeck, Deck_findOne_owned, Deck_findByIdAndUpdate.
  destruct valid; run_quiet Hq; [|done].
  destruct (decks st !! id) as [d|]; simpl; [|done].
  destruct (deck_createdBy d =? uid)%N; simpl; [|done].
  by apply counted_decks_alter.
Qed.

Lemma DeleteDeck_counted env uid id st :
  quiet env → cards_counted st →
  cards_counted (DeleteDeck env uid id st).1.
Proof.
  intros Hq Hinv.
  unfold DeleteDeck, Deck_findOne_owned, Flashcard_deleteMany,
    StudySession_deleteMany, Deck_findByIdAndDelete.
  run_quiet Hq.
  destruct (decks st !! id) as [d|]; simpl; [|done].
  destruct (deck_createdBy d =? uid)%N; simpl; [|done].
  intros did. specialize (Hinv did). unfold live_count in *. simpl.
  rewrite count_deleteMany. case_decide as Hd.
  - subst. by rewrite lookup_delete_eq.
  - by rewrite lookup_delete_ne.
Qed.

Lemma CreateFlashcard_counted env uid did valid b st :
  quiet env → cards_counted st →
  cards_counted (CreateFlashcard env uid did valid b st).1.
Proof.
  intros Hq Hinv.
  unfold CreateFlashcard, Deck_findOne_owned, Flashcard_create,
    Deck_findByIdAndUpdate.
  destruct valid; run_quiet Hq; [|done].
  destruct (decks st !! did) as [d|] eqn:Hd; simpl; [|done].
  destruct (deck_createdBy d =? uid)%N; simpl; [|done].
  destruct (cards st !! newId env) eqn:Hid; simpl; [done|].
  intros did'. specialize (Hinv did'). unfold live_count in *. simpl.
  rewrite count_insert_fresh by done. simpl.
  case_decide as Hd'.
  - subst did'. rewrite lookup_alter_eq, Hd in *. simpl. lia.
  - by rewrite lookup_alter_ne.
Qed.

Lemma GetFlashcard_counted env uid id st :
  quiet env → cards_counted st →
  cards_counted (GetFlashcard env uid id st).1.
Proof.
  intros Hq Hinv. unfold GetFlashcard, Flashcard_findById,
    Flashcard_findByIdAndUpdate.
  run_quiet Hq.
  destruct (cards st !! id) as [c|]; simpl; [|done].
  destruct (fc_createdBy c =? uid)%N; simpl.
  - by apply counted_cards_alter.
  - by destruct (decks st !! fc_deck c).
Qed.

Lemma UpdateFlashcard_counted env uid id valid b st :
  quiet env → cards_counted st →
  cards_counted (UpdateFlashcard env uid id valid b st).1.
Proof.
  intros Hq Hinv. unfold UpdateFlashcard, Flashcard_findOne_owned,
    Flashcard_findByIdAndUpdate.
  destruct valid; run_quiet Hq; [|done].
  destruct (cards st !! id) as [c|]; simpl; [|done].
  destruct (fc_createdBy c =? uid)%N; simpl; [|done].
  by apply counted_cards_alter.
Qed.

Lemma DeleteFlashcard_counted env uid id st :
  quiet env → cards_counted st →
  cards_counted (DeleteFlashcard env uid id st).1.
Proof.
  intros Hq Hinv. unfold DeleteFlashcard, Flashcard_findOne_owned,
    Flashcard_findByIdAndDelete, Deck_findByIdAndUpdate.
  run_quiet Hq.
  destruct (cards st !! id) as [c|] eqn:Hid; simpl; [|done].
  destruct (fc_createdBy c =? uid)%N; simpl; [|done].
  intros did. specialize (Hinv did). unfold live_count in *. simpl.
  rewrite (count_delete did id c) in Hinv by done.
  case_decide as Hd.
  - subst did. rewrite lookup_alter_eq.
    destruct (decks st !! fc_deck c); simpl; lia.
  - by rewrite lookup_alter_ne.
Qed.

Lemma StartSession_counted env uid did st :
  quiet env → cards_counted st →
  cards_counted (StartSession env uid did st).1.
Proof.
  intros Hq Hinv. unfold StartSession, Deck_findOne_visible, Flashcard_find,
    StudySession_create.
  run_quiet Hq.
  destruct (decks st !! did) as [d|]; simpl; [|done].
  destruct (_ || _); simpl; [|done].
  destruct (_ =? _)%nat; simpl; [done|].
  by destruct (sessions st !! newId env).
Qed.

Lemma RecordOutcome_counted env uid sid fid b t st :
  quiet env → cards_counted st →
  cards_counted (RecordOutcome env uid sid fid b t st).1.
Proof.
  intros Hq Hinv. unfold RecordOutcome, StudySession_findOne,
    Flashcard_findByIdAndUpdate, StudySession_save.
  run_quiet Hq.
  destruct (sessions st !! sid) as [s|]; simpl; [|done].
  destruct (user s =? uid)%N; simpl; [|done].
  destruct (findIndex fid (flashcards s)); simpl; [|done].
  destruct b; run_quiet Hq; destruct (percentage_of _); simpl;
    try apply counted_sessions; by apply counted_cards_alter.
Qed.

Lemma CompleteSession_counted env uid sid st :
  quiet env → cards_counted st →
  cards_counted (CompleteSession env uid sid st).1.
Proof.
  intros Hq Hinv. unfold CompleteSession, StudySession_findOne,
    StudySession_save, Deck_findByIdAndUpdate.
  run_quiet Hq.
  destruct (sessions st !! sid) as [s|]; simpl; [|done].
  destruct (user s =? uid)%N; simpl; [|done].
  apply counted_decks_alter; [done|]. by apply counted_sessions.
Qed.

Lemma GetUserStatistics_counted env uid range st :
  quiet env → cards_counted st →
  cards_counted (GetUserStatistics env uid range st).1.
Proof.
  intros Hq Hinv. unfold GetUserStatistics, report_since, StudySession_find,
    Deck_countDocuments, Flashcard_countDocuments.
  destruct (dateFilter _ _) as [[?|]|]; by run_quiet Hq.
Qed.

Lemma GetStatistics_counted env uid range st :
  cards_counted st → cards_counted (GetStatistics env uid range st).1.
Proof. by route_statistics. Qed.

Lemma serve_counted st c :
  quiet c.1 → cards_counted st → cards_counted (serve st c).
Proof.
  destruct c as [env r]. unfold serve. simpl. intros Hq Hinv.
  destruct r;
    [ by apply CreateDeck_counted | by apply UpdateDeck_counted
    | by apply DeleteDeck_counted | by apply CreateFlashcard_counted
    | by apply GetFlashcard_counted | by apply UpdateFlashcard_counted
    | by apply DeleteFlashcard_counted | by apply StartSession_counted
    | by apply RecordOutcome_counted | by apply CompleteSession_counted
    | by apply (GetStatistics_counted env uid range) ].
Qed.

Lemma empty_counted : cards_counted empty_store.
Proof.
  intros did. unfold live_count. simpl.
  by rewrite map_filter_empty, lookup_empty.
Qed.


(** ** Starting a session *)

(** C2: on a deck the caller may see, [StartSession] answers 400 and leaves
    the database as it is when the deck has no flashcard; when the deck has
    [N >= 1] flashcards it stores a new session with exactly [N] card
    records, one per flashcard of the deck, each unanswered ([isCorrect]
    null) with [timeSpent] 0 and [attempts] 0, and a zero score. *)
Theorem StartSession_blank_snapshot env uid did d st :
  quiet env →
  (∀ l, sort_random env l ≡ₚ l) →
  sessions st !! newId env = None →
  decks st !! did = Some d →
  deck_createdBy d = uid ∨ isPublic d = true →
  if decide (live_count did st = 0%nat)
  then StartSession env uid did st
       = (st, Failure 400 "No flashcards found in this deck")
  else
    ∃ s ordered,
      StartSession env uid did st
      = (set_sessions <[newId env := s]> st,
         Success 201 {| sessionId := newId env; sd_flashcards := ordered;
                        deckSettings := settings d |}) ∧
      length (flashcards s) = live_count did st ∧
      Forall (λ c, isCorrect c = None ∧ timeSpent c = 0 ∧ attempts c = 0%N)
             (flashcards s) ∧
      flashcard <$> flashcards s
        ≡ₚ (map_to_list (filter (in_deck did) (cards st))).*1 ∧
      score s = {| correct := 0; incorrect := 0; percentage := 0 |} ∧
      user s = uid ∧ deck s = did ∧ isCompleted s = false ∧
      endTime s = None ∧ totalDuration s = None.
Proof.
  intros Hq Hperm Hfresh Hd Hvis.
  unfold StartSession, Deck_findOne_visible, Flashcard_find,
    StudySession_create, live_count.
  run_quiet Hq. rewrite Hd.
  assert ((deck_createdBy d =? uid)%N || isPublic d = true) as ->.
  { destruct Hvis as [<-| ->]; [by rewrite N.eqb_refl|apply orb_true_r]. }
  simpl. rewrite length_map_to_list.
  set (found := map_to_list (filter (in_deck did) (cards st))).
  case_decide as Hn.
  - by rewrite Hn.
  - destruct (Nat.eqb_spec (size (filter (in_deck did) (cards st))) 0);
      [done|]. simpl.
    rewrite Hfresh. simpl.
    set (ordered := if randomOrder (settings d) then _ else _).
    assert (ordered ≡ₚ found) as Hord.
    { subst ordered. by destruct (randomOrder (settings d)). }
    eexists _, ordered. split; [done|]. simpl.
    rewrite length_fmap.
    split; [by rewrite Hord; apply length_map_to_list|].
    split; [by apply Forall_fmap, Forall_true|].
    split; [|done].
    rewrite <- list_fmap_compose. by rewrite Hord.
Qed.

Lemma StartSession_blank_snapshot_witness :
  if decide (live_count Sample.math (Sample.store_of 4) = 0%nat)
  then StartSession (Sample.env_at 0) Sample.alice Sample.math
         (Sample.store_of 4)
       = (Sample.store_of 4, Failure 400 "No flashcards found in this deck")
  else
    ∃ s ordered,
      StartSession (Sample.env_at 0) Sample.alice Sample.math
        (Sample.store_of 4)
      = (set_sessions <[Sample.session := s]> (Sample.store_of 4),
         Success 201 {| sessionId := Sample.session;
                        sd_flashcards := ordered;
                        deckSettings := default_settings |}) ∧
      length (flashcards s) = live_count Sample.math (Sample.store_of 4) ∧
      Forall (λ c, isCorrect c = None ∧ timeSpent c = 0 ∧ attempts c = 0%N)
             (flashcards s) ∧
      flashcard <$> flashcards s
        ≡ₚ (map_to_list
              (filter (in_deck Sample.math)
                 (cards (Sample.store_of 4)))).*1 ∧
      score s = {| correct := 0; incorrect := 0; percentage := 0 |} ∧
      user s = Sample.alice ∧ deck s = Sample.math ∧
      isCompleted s = false ∧ endTime s = None ∧ totalDuration s = None.
Proof.
  apply (StartSession_blank_snapshot (Sample.env_at 0) Sample.alice
           Sample.math (Sample.deck_of Sample.alice 4) (Sample.store_of 4)).
  - intros m op. reflexivity.
  - intros l. reflexivity.
  - reflexivity.
  - vm_compute. reflexivity.
  - left. reflexivity.
Defined.

Example StartSession_four_cards :
  live_count Sample.math (Sample.store_of 4) = 4%nat ∧
  (length ∘ flashcards <$> sessions (Sample.started 4) !! Sample.session)
  = Some 4%nat.
Proof. split; vm_compute; reflexivity. Qed.

Example StartSession_empty_deck :
  StartSession (Sample.env_at 0) Sample.alice Sample.math (Sample.store_of 0)
  = (Sample.store_of 0, Failure 400 "No flashcards found in this deck").
Proof. vm_compute. reflexivity. Qed.

(** ** Recording outcomes *)

(** C7: a [RecordOutcome] for a flashcard that is in no card record of the
    caller's session answers 400, "Flashcard not found in this session",
    and changes nothing in the database: the score and the card records
    stay as they were. *)
Theorem RecordOutcome_unknown_card env uid sid fid b t st s :
  rejects env StudySessionM op_findOne = false →
  sessions st !! sid = Some s → user s = uid →
  (∀ c, c ∈ flashcards s → flashcard c ≠ fid) →
  RecordOutcome env uid sid fid b t st
  = (st, Failure 400 "Flashcard not found in this session").
Proof.
  intros Hr Hs Hu Hc. unfold RecordOutcome, handler, bind at 1.
  rewrite (StudySession_findOne_found _ _ _ _ s) by done.
  by rewrite findIndex_None.
Qed.

Lemma RecordOutcome_unknown_card_witness :
  RecordOutcome (Sample.env_at 1000) Sample.alice Sample.session 999 true 5
    (Sample.started 1)
  = (Sample.started 1, Failure 400 "Flashcard not found in this session").
Proof.
  apply (RecordOutcome_unknown_card (Sample.env_at 1000) Sample.alice
           Sample.session 999 true 5 (Sample.started 1) Sample.one_card).
  - reflexivity.
  - vm_compute. reflexivity.
  - reflexivity.
  - intros c Hc. apply list_elem_of_singleton in Hc. rewrite Hc. simpl. lia.
Defined.



Example answered_twice :
  let st' :=
    (RecordOutcomes Sample.alice Sample.session
       (Sample.answers true 0 1 ++ Sample.answers false 0 1)
       (Sample.started 1)).1 in
  (flashcards <$> sessions st' !! Sample.session)
  = Some [ {| flashcard := 100; isCorrect := Some false; timeSpent := 10;
              attempts := 2 |} ] ∧
  (score <$> sessions st' !! Sample.session)
  = Some {| correct := 1; incorrect := 1; percentage := 50 |}.
Proof. split; vm_compute; reflexivity. Qed.

(** The scenario of the specification: four cards, three answered
    correctly and one wrongly. *)
Example scenario_math :
  let calls :=
    Sample.answers true 0 1 ++ Sample.answers false 1 1
    ++ Sample.answers true 2 2 in
  (score <$>
     sessions (RecordOutcomes Sample.alice Sample.session calls
                 (Sample.started 4)).1 !! Sample.session)
  = Some {| correct := 3; incorrect := 1; percentage := 75 |}.
Proof. vm_compute. reflexivity. Qed.

(** C1: 23 correct and 17 incorrect submissions on the 40 distinct cards
    of a fresh session leave [score.correct = 23] and
    [score.incorrect = 17], and a percentage of 57: in doubles
    [(23 / 40) * 100] is 57.49999999999999, which [Math.round] takes down,
    while [round(100 * 23 / 40)] is 58. *)
Theorem RecordOutcome_percentage_23_of_40 :
  let calls := Sample.answers true 0 23 ++ Sample.answers false 23 17 in
  let r := RecordOutcomes Sample.alice Sample.session calls
             (Sample.started 40) in
  r.2 = (23, 17)%N ∧
  (score <$> sessions r.1 !! Sample.session)
  = Some {| correct := 23; incorrect := 17; percentage := 57 |} ∧
  spec_percentage 23 17 = 58 ∧
  Js.mul (Js.div (Js.of_Z 23) (Js.of_Z 40)) (Js.of_Z 100)
  = 0x1.cbfffffffffffp+5%float.
Proof. repeat split; vm_compute; reflexivity. Qed.

(** Where the quotient is exact in binary a half goes up: 1 of 8 is 12.5
    and is stored as 13. *)
Example RecordOutcome_percentage_1_of_8 :
  percentage_of {| correct := 1; incorrect := 7; percentage := 0 |}
  = Some 13 ∧ spec_percentage 1 7 = 13.
Proof. split; vm_compute; reflexivity. Qed.

(** C3, as the handler has it: [RecordOutcome] does not look at the
    completion flag.  On a session of the caller that holds the card,
    completed or not, it answers 200, updates the card record and the
    score and stores them; the completion flag, the end time and the
    duration stay as they are. *)
Theorem RecordOutcome_ignores_completion env uid sid fid b t st s i p :
  quiet env →
  sessions st !! sid = Some s → user s = uid →
  findIndex fid (flashcards s) = Some i →
  percentage_of (tally b (score s)) = Some p →
  ∃ st' s',
    RecordOutcome env uid sid fid b t st = (st', Success 200 s') ∧
    sessions st' !! sid = Some s' ∧
    flashcards s' = alter (answer_card b t) i (flashcards s) ∧
    score s' = {| correct := correct (tally b (score s));
                  incorrect := incorrect (tally b (score s));
                  percentage := p |} ∧
    isCompleted s' = isCompleted s ∧ endTime s' = endTime s ∧
    totalDuration s' = totalDuration s.
Proof.
  intros Hq Hs Hu Hi Hp.
  rewrite (RecordOutcome_found _ _ _ _ _ _ _ s i) by done.
  rewrite !Hq, Hp. simpl. eexists _, _. split; [done|].
  simpl. rewrite lookup_insert_eq. by repeat split.
Qed.

Lemma RecordOutcome_ignores_completion_witness :
  ∃ st' s',
    RecordOutcome (Sample.env_at 6000) Sample.alice Sample.session 100
      true 5 Sample.done_once = (st', Success 200 s') ∧
    sessions st' !! Sample.session = Some s' ∧
    flashcards s'
    = alter (answer_card true 5) 0%nat
        (flashcards (completed_at 5000 Sample.one_card)) ∧
    score s'
    = {| correct :=
           correct (tally true (score (completed_at 5000 Sample.one_card)));
         incorrect :=
           incorrect (tally true (score (completed_at 5000 Sample.one_card)));
         percentage := 100 |} ∧
    isCompleted s' = isCompleted (completed_at 5000 Sample.one_card) ∧
    endTime s' = endTime (completed_at 5000 Sample.one_card) ∧
    totalDuration s' = totalDuration (completed_at 5000 Sample.one_card).
Proof.
  apply (RecordOutcome_ignores_completion (Sample.env_at 6000) Sample.alice
           Sample.session 100 true 5 Sample.done_once
           (completed_at 5000 Sample.one_card) 0%nat 100).
  - intros m op. reflexivity.
  - vm_compute. reflexivity.
  - reflexivity.
  - vm_compute. reflexivity.
  - vm_compute. reflexivity.
Defined.

(** C3, a completed session that takes a submission: the one-card session
    completed after five seconds is answered 200 a second later, and its
    score goes from 0/0 to 1/0 with a percentage of 100. *)
Lemma RecordOutcome_completed_accepted :
  (isCompleted <$> sessions Sample.done_once !! Sample.session) = Some true ∧
  (score <$> sessions Sample.done_once !! Sample.session)
  = Some {| correct := 0; incorrect := 0; percentage := 0 |} ∧
  ∃ st' s',
    RecordOutcome (Sample.env_at 6000) Sample.alice Sample.session 100
      true 5 Sample.done_once = (st', Success 200 s') ∧
    sessions st' !! Sample.session = Some s' ∧
    score s' = {| correct := 1; incorrect := 0; percentage := 100 |} ∧
    (attempts <$> flashcards s') = [1%N].
Proof.
  split; [vm_compute; reflexivity|]. split; [vm_compute; reflexivity|].
  eexists _, _. split; [vm_compute; reflexivity|].
  repeat split; vm_compute; reflexivity.
Qed.

(** C6, as the handler has it: the increment of the flashcard's statistics
    is awaited before the session is saved, inside the handler's one
    [try] block.  When it rejects, [RecordOutcome] answers 500, "Server
    error", and nothing is written: the session keeps its old card records
    and score. *)
Theorem RecordOutcome_increment_failure_aborts env uid sid fid b t st s i :
  rejects env StudySessionM op_findOne = false →
  rejects env FlashcardM op_findByIdAndUpdate = true →
  sessions st !! sid = Some s → user s = uid →
  findIndex fid (flashcards s) = Some i →
  RecordOutcome env uid sid fid b t st = (st, Failure 500 "Server error").
Proof.
  intros Hr Hf Hs Hu Hi.
  rewrite (RecordOutcome_found _ _ _ _ _ _ _ s i) by done. by rewrite Hf.
Qed.

Lemma RecordOutcome_increment_failure_aborts_witness :
  RecordOutcome Sample.card_updates_reject Sample.alice Sample.session 100
    false 3 (Sample.started 1)
  = (Sample.started 1, Failure 500 "Server error").
Proof.
  apply (RecordOutcome_increment_failure_aborts Sample.card_updates_reject
           Sample.alice Sample.session 100 false 3 (Sample.started 1)
           Sample.one_card 0%nat).
  - reflexivity.
  - reflexivity.
  - vm_compute. reflexivity.
  - reflexivity.
  - vm_compute. reflexivity.
Defined.

(** C6, a submission lost with the increment: the card is in the session,
    the session store works, the flashcard store rejects the increment;
    the answer is 500 and the stored session is still unanswered. *)
Lemma RecordOutcome_increment_failure_sample :
  let r := RecordOutcome Sample.card_updates_reject Sample.alice
             Sample.session 100 true 5 (Sample.started 1) in
  r.2 = Failure 500 "Server error" ∧
  r.1 = Sample.started 1 ∧
  (flashcards <$> sessions r.1 !! Sample.session)
  = Some [ {| flashcard := 100; isCorrect := None; timeSpent := 0;
              attempts := 0 |} ] ∧
  is_success
    (RecordOutcome (Sample.env_at 1000) Sample.alice Sample.session 100
       true 5 (Sample.started 1)).2 = true.
Proof. repeat split; vm_compute; reflexivity. Qed.

(** ** Completing a session *)

(** C5: a successful [CompleteSession] stores the session with [endTime]
    the current time, [isCompleted] true and [totalDuration] the elapsed
    milliseconds divided by 1000 and rounded down, and adds to the
    session's deck [totalDuration] divided by 60 and rounded down as study
    time and the session's percentage as average score; nothing else
    changes. *)
Theorem CompleteSession_effect env uid sid st st' s' :
  CompleteSession env uid sid st = (st', Success 200 s') →
  ∃ s, sessions st !! sid = Some s ∧ user s = uid ∧
    s' = completed_at (now env) s ∧
    endTime s' = Some (now env) ∧ isCompleted s' = true ∧
    totalDuration s' = Some ((now env - startTime s) / 1000) ∧
    sessions st' = <[sid := s']> (sessions st) ∧
    cards st' = cards st ∧
    (∀ did, did ≠ deck s → decks st' !! did = decks st !! did) ∧
    ∀ d, decks st !! deck s = Some d →
      ∃ d', decks st' !! deck s = Some d' ∧
        totalStudyTime (deck_statistics d')
        = totalStudyTime (deck_statistics d)
          + ((now env - startTime s) / 1000) / 60 ∧
        averageScore (deck_statistics d')
        = averageScore (deck_statistics d) + percentage (score s') ∧
        totalCards (deck_statistics d') = totalCards (deck_statistics d).
Proof.
  intros H. pose proof H as H0.
  unfold CompleteSession, handler, bind at 1 in H0.
  destruct (StudySession_findOne env sid uid st) as [st0 [[s|]|]] eqn:E;
    [clear H0| by revert H0; run_handler..].
  apply StudySession_findOne_inv in E as (-> & Hr & Hs & Hu).
  rewrite (CompleteSession_found _ _ _ _ s) in H by done.
  destruct (rejects env StudySessionM op_save); [done|].
  destruct (rejects env DeckM op_findByIdAndUpdate); [done|].
  simpl in H. injection H as <- <-.
  exists s. repeat split; try done.
  - intros did Hd. simpl. by rewrite lookup_alter_ne.
  - intros d Hd. simpl. rewrite lookup_alter_eq, Hd. simpl. eauto.
Qed.

(** A four-card session completed 125 seconds after its start: two
    minutes of study time for the deck. *)
Lemma CompleteSession_effect_witness :
  ∃ st' s',
    CompleteSession (Sample.env_at 125000) Sample.alice Sample.session
      (Sample.started 4) = (st', Success 200 s') ∧
    totalDuration s' = Some 125 ∧
    (totalStudyTime ∘ deck_statistics <$> decks st' !! Sample.math)
    = Some 2 ∧
    ∃ s, sessions (Sample.started 4) !! Sample.session = Some s ∧
      user s = Sample.alice ∧
      s' = completed_at 125000 s ∧
      endTime s' = Some 125000 ∧ isCompleted s' = true ∧
      totalDuration s' = Some ((125000 - startTime s) / 1000) ∧
      sessions st' = <[Sample.session := s']> (sessions (Sample.started 4)) ∧
      cards st' = cards (Sample.started 4) ∧
      (∀ did, did ≠ deck s →
         decks st' !! did = decks (Sample.started 4) !! did) ∧
      ∀ d, decks (Sample.started 4) !! deck s = Some d →
        ∃ d', decks st' !! deck s = Some d' ∧
          totalStudyTime (deck_statistics d')
          = totalStudyTime (deck_statistics d)
            + ((125000 - startTime s) / 1000) / 60 ∧
          averageScore (deck_statistics d')
          = averageScore (deck_statistics d) + percentage (score s') ∧
          totalCards (deck_statistics d') = totalCards (deck_statistics d).
Proof.
  eexists _, _. split; [vm_compute; reflexivity|].
  split; [reflexivity|]. split; [vm_compute; reflexivity|].
  apply (CompleteSession_effect (Sample.env_at 125000) Sample.alice
           Sample.session (Sample.started 4)).
  vm_compute. reflexivity.
Defined.

(** C4, as the handler has it: there is no "already completed" failure.
    Every [CompleteSession] on a session of the caller answers 200, also
    on a completed session, and sets [endTime] to the time of that call and
    [totalDuration] to the seconds elapsed since the start: a second call
    replaces what the first call stored. *)
Theorem CompleteSession_again_overwrites env1 env2 uid sid st s :
  quiet env1 → quiet env2 →
  sessions st !! sid = Some s → user s = uid →
  let first := CompleteSession env1 uid sid st in
  let second := CompleteSession env2 uid sid first.1 in
  first.2 = Success 200 (completed_at (now env1) s) ∧
  second.2 = Success 200 (completed_at (now env2) s) ∧
  sessions second.1 !! sid = Some (completed_at (now env2) s) ∧
  endTime (completed_at (now env2) s) = Some (now env2) ∧
  totalDuration (completed_at (now env2) s)
  = Some ((now env2 - startTime s) / 1000).
Proof.
  intros Hq1 Hq2 Hs Hu. simpl.
  rewrite (CompleteSession_found env1 _ _ _ s) by done.
  rewrite !Hq1. simpl.
  rewrite (CompleteSession_found env2 _ _ _ (completed_at (now env1) s));
    [|done|by simpl; rewrite lookup_insert_eq|done].
  rewrite !Hq2. simpl. rewrite lookup_insert_eq. done.
Qed.

Lemma CompleteSession_again_overwrites_witness :
  ∃ s, sessions (Sample.started 1) !! Sample.session = Some s ∧
  let first := CompleteSession (Sample.env_at 5000) Sample.alice
                 Sample.session (Sample.started 1) in
  let second := CompleteSession (Sample.env_at 9000) Sample.alice
                  Sample.session first.1 in
  first.2 = Success 200 (completed_at 5000 s) ∧
  second.2 = Success 200 (completed_at 9000 s) ∧
  sessions second.1 !! Sample.session = Some (completed_at 9000 s) ∧
  endTime (completed_at 9000 s) = Some 9000 ∧
  totalDuration (completed_at 9000 s) = Some ((9000 - startTime s) / 1000).
Proof.
  eexists. split; [vm_compute; reflexivity|].
  apply (CompleteSession_again_overwrites (Sample.env_at 5000)
           (Sample.env_at 9000) Sample.alice Sample.session
           (Sample.started 1)).
  - intros m op. reflexivity.
  - intros m op. reflexivity.
  - vm_compute. reflexivity.
  - reflexivity.
Defined.

(** C4, a session completed twice: the first call, five seconds after the
    start, stores a duration of 5; the second call, nine seconds after the
    start, is answered 200 as well and stores an end time of 9000 and a
    duration of 9. *)
Lemma CompleteSession_twice_succeeds :
  let second := CompleteSession (Sample.env_at 9000) Sample.alice
                  Sample.session Sample.done_once in
  (isCompleted <$> sessions Sample.done_once !! Sample.session) = Some true ∧
  (totalDuration <$> sessions Sample.done_once !! Sample.session)
  = Some (Some 5) ∧
  (endTime <$> sessions Sample.done_once !! Sample.session)
  = Some (Some 5000) ∧
  is_success second.2 = true ∧
  (totalDuration <$> sessions second.1 !! Sample.session) = Some (Some 9) ∧
  (endTime <$> sessions second.1 !! Sample.session) = Some (Some 9000).
Proof. repeat split; vm_compute; reflexivity. Qed.

(** ** The card count of a deck *)

(** C8, as the code has it: after any sequence of requests from an empty
    database in which every store call resolved, the [totalCards] of every
    deck is the number of flashcards that reference the deck: creating a
    flashcard adds one, deleting a flashcard takes one off, and no other
    route changes either side. *)
Theorem totalCards_is_live_count (calls : list (Env * Request)) did d :
  Forall (λ c, quiet c.1) calls →
  decks (foldl serve empty_store calls) !! did = Some d →
  totalCards (deck_statistics d)
  = Z.of_nat (live_count did (foldl serve empty_store calls)).
Proof.
  intros Hq Hd.
  assert (cards_counted (foldl serve empty_store calls)) as Hinv.
  { clear Hd. generalize empty_counted. generalize empty_store.
    induction Hq as [|c calls Hc _ IH]; intros st Hst; [done|].
    simpl. by apply IH, serve_counted. }
  specialize (Hinv did). by rewrite Hd in Hinv.
Qed.

Lemma totalCards_is_live_count_witness :
  ∃ d, decks (foldl serve empty_store Sample.history) !! Sample.math = Some d ∧
    totalCards (deck_statistics d) = 1 ∧
    totalCards (deck_statistics d)
    = Z.of_nat (live_count Sample.math
                  (foldl serve empty_store Sample.history)).
Proof.
  eexists. split; [vm_compute; reflexivity|]. split; [reflexivity|].
  apply (totalCards_is_live_count Sample.history Sample.math).
  - repeat (constructor; [intros m op; reflexivity|]). constructor.
  - vm_compute. reflexivity.
Defined.

(** C8, without the condition: a deck is created and then a flashcard in
    it, and the deck update that counts the flashcard rejects.  The
    flashcard is stored and the request is answered 500; the deck has one
    flashcard and a [totalCards] of 0. *)
Lemma totalCards_behind_live_count :
  let st := foldl serve empty_store Scene.cut_short in
  (respond (serve empty_store (calm 0 Sample.math id,
                               CreateDeckReq Sample.alice true
                                 Sample.deck_body))
     (Scene.deck_updates_reject,
      CreateFlashcardReq Sample.alice Sample.math true Sample.card_body)).2
  = 500%nat ∧
  (totalCards ∘ deck_statistics <$> decks st !! Sample.math) = Some 0 ∧
  live_count Sample.math st = 1%nat ∧
  ¬ cards_counted st.
Proof.
  split; [vm_compute; reflexivity|]. split; [vm_compute; reflexivity|].
  assert (live_count Sample.math (foldl serve empty_store Scene.cut_short)
          = 1%nat) as Hlive by (vm_compute; reflexivity).
  split; [exact Hlive|]. intros Hinv. specialize (Hinv Sample.math).
  rewrite Hlive in Hinv. vm_compute in Hinv. discriminate Hinv.
Qed.

(** Each of the two routes on its own. *)
Lemma CreateFlashcard_increments env uid did b st d :
  quiet env →
  decks st !! did = Some d → deck_createdBy d = uid →
  cards st !! newId env = None →
  let st' := (CreateFlashcard env uid did true b st).1 in
  live_count did st' = S (live_count did st) ∧
  (totalCards ∘ deck_statistics <$> decks st' !! did)
  = Some (totalCards (deck_statistics d) + 1).
Proof.
  intros Hq Hd Hu Hid.
  unfold CreateFlashcard, Deck_findOne_owned, Flashcard_create,
    Deck_findByIdAndUpdate, live_count.
  run_quiet Hq. rewrite Hd. rewrite <- Hu, N.eqb_refl. simpl.
  rewrite Hid. simpl. rewrite count_insert_fresh by done. simpl.
  rewrite decide_True by done. by rewrite lookup_alter_eq, Hd.
Qed.

Lemma DeleteFlashcard_decrements env uid id st c d :
  quiet env →
  cards st !! id = Some c → fc_createdBy c = uid →
  decks st !! fc_deck c = Some d →
  let st' := (DeleteFlashcard env uid id st).1 in
  S (live_count (fc_deck c) st') = live_count (fc_deck c) st ∧
  (totalCards ∘ deck_statistics <$> decks st' !! fc_deck c)
  = Some (totalCards (deck_statistics d) + -1).
Proof.
  intros Hq Hc Hu Hd.
  unfold DeleteFlashcard, Flashcard_findOne_owned,
    Flashcard_findByIdAndDelete, Deck_findByIdAndUpdate, live_count.
  run_quiet Hq. rewrite Hc. rewrite <- Hu, N.eqb_refl. simpl.
  rewrite (count_delete (fc_deck c) id c (cards st)) by done.
  rewrite decide_True by done. by rewrite lookup_alter_eq, Hd.
Qed.

(** ** The request for the statistics *)


(** ** The statistics handler on its own

    What the handler that is registered for [GET /statistics] computes
    when it is applied to a request.  As the routes are registered, the
    router hands it none. *)

(** A [range] other than ["all"] is read as a number of days, by
    [parseInt] after its first ['d'] is taken out; a missing or empty
    [range] stands for ["7d"].  Whenever that gives an integer [days] for
    which the start of the window is a valid date, the handler answers 200
    with the report over the caller's completed sessions created in the
    last [days] days. *)
Lemma GetUserStatistics_parsed_window env uid range st days :
  quiet env →
  timeRange_of range ≠ "all" →
  Js.parseInt (Js.replace "d" "" (timeRange_of range)) = Some days →
  Z.abs (now env - days * 86400000) ≤ 8640000000000000 →
  ∃ r, GetUserStatistics env uid range st = (st, Success 200 r) ∧
    report_since env uid (Some (now env - days * 86400000)) st
    = (st, Some r) ∧
    totalSessions (overview r)
    = size (filter (completed_since uid (Some (now env - days * 86400000)))
                   (sessions st)).
Proof.
  intros Hq Hall Hdays Hrange.
  destruct (report_since_quiet env uid
              (Some (now env - days * 86400000)) st Hq) as (r & Hr & Hn).
  exists r. split; [|done].
  unfold GetUserStatistics, dateFilter.
  destruct (String.eqb_spec (timeRange_of range) "all"); [done|].
  rewrite Hdays. simpl. unfold Js.Date_of.
  replace (now env - days * 24 * 60 * 60 * 1000)
    with (now env - days * 86400000) by lia.
  destruct (Z.leb_spec (Z.abs (now env - days * 86400000)) 8640000000000000);
    [|lia].
  unfold handler, bind at 1. by rewrite Hr.
Qed.

(** A missing range and an empty one are the 7-day window. *)
Example timeRange_default :
  timeRange_of None = "7d" ∧ timeRange_of (Some "") = "7d" ∧
  Js.parseInt (Js.replace "d" "" "7d") = Some 7 ∧
  Js.parseInt (Js.replace "d" "" "30d") = Some 30 ∧
  Js.parseInt (Js.replace "d" "" "90d") = Some 90.
Proof. repeat split; reflexivity. Qed.

(** [parseInt] passes over the white space its argument starts with, a
    no-break space (U+00A0) and a byte order mark (U+FEFF) included. *)
Example parseInt_skips_white_space :
  Js.parseInt (String (ascii_of_N 194) (String (ascii_of_N 160) " 14d"))
  = Some 14 ∧
  Js.parseInt
    (String (ascii_of_N 239)
       (String (ascii_of_N 187) (String (ascii_of_N 191) "14")))
  = Some 14.
Proof. split; reflexivity. Qed.

(** Ten days after a session was created and completed, the handler
    answers ["14d"] with a report that counts the session, and a missing
    range and ["7d"] with one that does not. *)
Example GetUserStatistics_14d_window :
  ∃ r14 r7,
    GetUserStatistics (Sample.env_at Sample.ten_days) Sample.alice
      (Some "14d") Sample.done_once = (Sample.done_once, Success 200 r14) ∧
    GetUserStatistics (Sample.env_at Sample.ten_days) Sample.alice
      None Sample.done_once = (Sample.done_once, Success 200 r7) ∧
    GetUserStatistics (Sample.env_at Sample.ten_days) Sample.alice
      (Some "7d") Sample.done_once = (Sample.done_once, Success 200 r7) ∧
    totalSessions (overview r14) = 1%nat ∧
    totalSessions (overview r7) = 0%nat.
Proof.
  eexists _, _. split; [vm_compute; reflexivity|].
  split; [vm_compute; reflexivity|]. split; [vm_compute; reflexivity|].
  split; reflexivity.
Qed.

(** A range that [parseInt] cannot read makes the start of the window an
    Invalid Date, and the handler ends in its [catch] block. *)
Example GetUserStatistics_unreadable_range :
  GetUserStatistics (Sample.env_at Sample.ten_days) Sample.alice
    (Some "week") Sample.done_once
  = (Sample.done_once, Failure 500 "Server error").
Proof. vm_compute. reflexivity. Qed.

(** * More properties of the routes *)

(** Open a route down to its store calls. *)
Ltac unfold_routes :=
  route_statistics;
  unfold CreateDeck, UpdateDeck, DeleteDeck, CreateFlashcard, GetFlashcard,
    UpdateFlashcard, DeleteFlashcard, StartSession, RecordOutcome,
    CompleteSession, GetUserStatistics, GetDeck, report_since;
  unfold Deck_findOne_visible, Deck_findOne_owned, Deck_create,
    Deck_findByIdAndUpdate, Deck_findByIdAndDelete, Flashcard_find,
    Flashcard_findOne_owned, Flashcard_findById, Flashcard_create,
    Flashcard_findByIdAndUpdate, Flashcard_findByIdAndDelete,
    Flashcard_deleteMany, StudySession_create, StudySession_findOne,
    StudySession_save, StudySession_deleteMany, StudySession_find,
    Deck_countDocuments, Flashcard_countDocuments,
    Flashcard_countDocuments_deck;
  run_handler.

(** Reduce the plumbing of the monad and the projections of the store,
    nothing else. *)
Ltac tidy :=
  cbn beta iota zeta
      delta [fst snd prod_map id status sessions decks cards set_sessions
             set_decks set_cards negb].

(** Split on every test a route makes, store calls included, innermost
    test first. *)
Ltac crack_step :=
  match goal with
  | |- context [rejects ?e ?m ?o] => destruct (rejects e m o) eqn:?
  | |- context [match ?x with _ => _ end] =>
      lazymatch x with
      | context [match _ with _ => _ end] => fail
      | _ => destruct x eqn:?
      end
  end.

Ltac crack :=
  tidy; unfold_routes; tidy; repeat (crack_step; tidy).

#[local] Arguments percentage_of : simpl never.
#[local] Arguments findIndex : simpl never.
#[local] Arguments dateFilter : simpl never.

Ltac finish := intros; simplify_eq; cbn [status] in *; try done; try lia.

(** ** What no request does *)

Lemma eqb_user (a b : N) : (a =? b)%N = true → a = b.
Proof. apply N.eqb_eq. Qed.

Lemma neqb_user (a b : N) : (a =? b)%N = false → a ≠ b.
Proof. apply N.eqb_neq. Qed.

Ltac eqb_facts :=
  repeat match goal with
    | H : (_ =? _)%N = true |- _ => apply eqb_user in H
    | H : (_ =? _)%N = false |- _ => apply neqb_user in H
    | H : _ || _ = true |- _ => apply orb_true_iff in H
    | H : _ || _ = false |- _ => apply orb_false_iff in H as [? ?]
    end.

(** X1: A request that is answered with a 4xx status (400, 403 or 404) has
    written nothing: the database is the one it found, whichever store calls
    reject. *)
Theorem refused_writes_nothing st c st' k :
  respond st c = (st', k) → (400 ≤ k < 500)%nat → st' = st.
Proof.
  destruct c as [env r]. unfold respond. intros H Hk. revert H.
  destruct r; crack; finish.
Qed.

(** X2: The two routes that only report, [GET /decks/:id] and
    [GET /statistics], never write, whatever they answer and whichever
    store calls reject. *)
Theorem read_routes_write_nothing env uid id range st :
  (GetDeck env uid id st).1 = st ∧
  (GetUserStatistics env uid range st).1 = st.
Proof. split; crack; finish. Qed.

(** X3: A session of another user is out of reach: whatever a request by
    [requester r] is and whichever store calls reject, a stored session of
    somebody else is still stored, unchanged, afterwards, unless the request
    deletes the deck the session is on. *)
Theorem other_sessions_untouched st env r sid s :
  sessions st !! sid = Some s →
  user s ≠ requester r →
  r ≠ DeleteDeckReq (requester r) (deck s) →
  sessions (serve st (env, r)) !! sid = Some s.
Proof.
  intros Hs Hu Hr. unfold serve. cbn [fst snd].
  destruct r; cbn [requester] in *; crack; try done.
  all: first
    [ apply map_lookup_filter_Some_2; [done|cbn; congruence]
    | rewrite lookup_insert_ne; [done|]; intros ?; subst; eqb_facts;
      congruence ].
Qed.

Lemma same_profile_refl d : same_profile d d.
Proof. by repeat split. Qed.

(** X4: Only its owner edits or deletes a deck: after any request by somebody
    else, whichever store calls reject, the deck is still there with the
    same name, description, category, visibility, color, owner and
    settings (its statistics may have moved). *)
Theorem foreign_deck_kept st env r did d :
  decks st !! did = Some d →
  deck_createdBy d ≠ requester r →
  ∃ d', decks (serve st (env, r)) !! did = Some d' ∧ same_profile d d'.
Proof.
  intros Hd Hu. unfold serve. cbn [fst snd].
  destruct r; cbn [requester] in *; crack;
    try (by exists d; split; [|apply same_profile_refl]).
  all: try (exists d; split; [|apply same_profile_refl];
            first [ rewrite lookup_insert_ne; [done|]; congruence
                  | rewrite lookup_alter_ne; [done|]; intros ?; subst;
                    eqb_facts; congruence
                  | rewrite lookup_delete_ne; [done|]; intros ?; subst;
                    eqb_facts; congruence ]).
  all: rewrite lookup_alter; case_decide; subst; rewrite ?Hd;
    eexists; (split; [reflexivity|by repeat split]).
Qed.

Lemma fmap_flashcard_alter b t i (cs : list SessionCard) :
  flashcard <$> alter (answer_card b t) i cs = flashcard <$> cs.
Proof.
  revert i. induction cs as [|c cs IH]; intros [|i]; try done.
  cbn. f_equal. apply IH.
Qed.

Lemma total_attempts_le b t i (cs : list SessionCard) :
  (foldr (λ c acc, (attempts c + acc)%N) 0%N cs
   ≤ foldr (λ c acc, (attempts c + acc)%N) 0%N
       (alter (answer_card b t) i cs))%N.
Proof.
  revert i. induction cs as [|c cs IH]; intros [|i]; try (simpl; lia).
  specialize (IH i). unfold alter in *. simpl. lia.
Qed.

Lemma continues_refl s : continues s s.
Proof. by repeat split. Qed.

Lemma continues_progress b t i s sc :
  (correct (score s) ≤ correct sc)%N →
  (incorrect (score s) ≤ incorrect sc)%N →
  continues s
    (with_progress s (alter (answer_card b t) i (flashcards s)) sc).
Proof.
  intros Hc Hi. repeat split; try done.
  - apply fmap_flashcard_alter.
  - apply total_attempts_le.
Qed.

Lemma continues_completed t s : continues s (completed_at t s).
Proof. by repeat split. Qed.

Ltac session_leaf Hs Hs' :=
  first
    [ apply map_lookup_filter_Some_1_1 in Hs'; simplify_eq;
      apply continues_refl
    | rewrite lookup_insert in Hs'; case_decide; simplify_eq;
      first [ apply continues_refl
            | apply continues_completed
            | apply continues_progress; cbn; lia ] ].

(** X5: What a stored session keeps and what can only grow: across any request
    that leaves the session in the database, its user, deck, start and
    creation times and the flashcards of its snapshot, in order, are the
    same; the two tallies and the attempts never go down, and a completed
    session stays completed. *)
Theorem session_continues st env r sid s s' :
  sessions st !! sid = Some s →
  sessions (serve st (env, r)) !! sid = Some s' →
  continues s s'.
Proof.
  intros Hs. unfold serve. cbn [fst snd].
  destruct r; crack; intros Hs';
    try (by simplify_eq; apply continues_refl).
  all: session_leaf Hs Hs'.
Qed.

(** ** Sessions in the databases that can be reached *)

Lemma sound_cards f st :
  sessions_sound st → sessions_sound (set_cards f st).
Proof. intros H sid s Hs. exact (H sid s Hs). Qed.

Lemma sound_decks_alter f id st :
  sessions_sound st → sessions_sound (set_decks (alter f id) st).
Proof.
  intros H sid s Hs. destruct (H sid s Hs) as [? [d Hd]]. split; [done|].
  cbn. rewrite lookup_alter. case_decide; subst; rewrite ?Hd; eauto.
Qed.

Lemma sound_decks_insert id d st :
  sessions_sound st → sessions_sound (set_decks <[id := d]> st).
Proof.
  intros H sid s Hs. destruct (H sid s Hs) as [? [d' Hd]]. split; [done|].
  cbn. rewrite lookup_insert. case_decide; eauto.
Qed.

Lemma sound_sessions_insert sid s st :
  session_sound s → is_Some (decks st !! deck s) →
  sessions_sound st → sessions_sound (set_sessions <[sid := s]> st).
Proof.
  intros Hs Hd H sid' s'. cbn. rewrite lookup_insert.
  case_decide; [by intros [= <-]|]. apply H.
Qed.

Lemma sound_sessions_filter (P : N * StudySession → Prop)
  `{!∀ p, Decision (P p)} st :
  sessions_sound st → sessions_sound (set_sessions (filter P) st).
Proof.
  intros Hst sid s Hs. apply map_lookup_filter_Some_1_1 in Hs.
  exact (Hst sid s Hs).
Qed.

Lemma sound_deck_deleted id f st :
  sessions_sound st →
  sessions_sound
    (set_decks (delete id)
       (set_sessions (filter (λ p, deck p.2 ≠ id)) (set_cards f st))).
Proof.
  intros H sid s Hs. cbn in Hs.
  apply map_lookup_filter_Some in Hs as [Hs Hne]. cbn in Hne.
  destruct (H sid s Hs) as [? Hd]. split; [done|].
  cbn. by rewrite lookup_delete_ne.
Qed.

Lemma blank_attempts (l : list (N * Flashcard)) :
  foldr (λ c acc, (attempts c + acc)%N) 0%N (blank_card <$> l) = 0%N.
Proof. induction l as [|p l IH]; [done|]. cbn. by rewrite IH. Qed.

Lemma new_session_sound t u d (l : list (N * Flashcard)) :
  l ≠ [] → session_sound (new_session t u d (blank_card <$> l)).
Proof.
  intros Hl. split; [by destruct l|]. split.
  - unfold total_attempts. cbn. by rewrite blank_attempts.
  - split; [|done]. apply Forall_fmap, Forall_true. by intros p.
Qed.

Lemma progress_sound b t i c p s sc :
  flashcards s !! i = Some c →
  (correct sc + incorrect sc
   = N.succ (correct (score s) + incorrect (score s)))%N →
  session_sound s →
  session_sound
    (with_progress s (alter (answer_card b t) i (flashcards s))
       {| correct := correct sc; incorrect := incorrect sc;
          percentage := p |}).
Proof.
  intros Hc Hsc (Hne & Hsum & Hall & Hdone). split; [|split; [|split]].
  - cbn. intros Hnil. apply (f_equal length) in Hnil.
    rewrite length_alter in Hnil. by destruct (flashcards s).
  - unfold total_attempts in *. cbn.
    rewrite (total_attempts_alter _ _ _ _ _ Hc). lia.
  - cbn. apply Forall_alter; [done|]. intros c' _ _.
    unfold card_sound. cbn. split; [lia|done].
  - done.
Qed.

Lemma completed_sound t s : session_sound s → session_sound (completed_at t s).
Proof.
  intros (Hne & Hsum & Hall & _). repeat split; try done; cbn; eauto.
Qed.

Lemma length_nonzero_nil {A} (l : list A) :
  (length l =? 0)%nat = false → l ≠ [].
Proof. by destruct l. Qed.

Lemma fair_nonempty env (l : list (N * Flashcard)) :
  fair env → (length l =? 0)%nat = false → sort_random env l ≠ [].
Proof.
  intros Hfair Hl Hnil. apply (f_equal length) in Hnil.
  rewrite (Hfair l) in Hnil. by destruct l.
Qed.

Ltac sound_leaf H Hfair :=
  repeat first
    [ assumption
    | apply sound_deck_deleted
    | apply sound_cards
    | apply sound_decks_alter
    | apply sound_decks_insert
    | apply sound_sessions_filter
    | apply sound_sessions_insert;
      [ first
          [ apply new_session_sound;
            first [ by apply fair_nonempty | by apply length_nonzero_nil ]
          | apply completed_sound; eapply H; eassumption
          | match goal with
            | Hi : findIndex _ _ = Some _ |- _ =>
                apply findIndex_Some in Hi as (? & ? & ?)
            end;
            eapply progress_sound;
            [ eassumption | cbn; lia | eapply H; eassumption ] ]
      | cbn [decks set_cards completed_at deck new_session with_progress];
        first [ by eauto | eapply H; eassumption ]
      | ] ].

Lemma serve_sessions_sound st c :
  fair c.1 → sessions_sound st → sessions_sound (serve st c).
Proof.
  destruct c as [env r]. cbn [fst]. intros Hfair H. unfold serve.
  cbn [fst snd].
  destruct r; crack; try done.
  all: sound_leaf H Hfair.
Qed.

Lemma empty_sessions_sound : sessions_sound empty_store.
Proof. intros sid s Hs. cbn in Hs. by rewrite lookup_empty in Hs. Qed.

Lemma reachable_sessions_sound (calls : list (Env * Request)) :
  Forall (λ c, fair c.1) calls →
  sessions_sound (foldl serve empty_store calls).
Proof.
  generalize empty_sessions_sound. generalize empty_store.
  induction calls as [|c calls IH]; intros st Hst Hf; [done|].
  apply Forall_cons in Hf as [Hc Hf]. cbn.
  by apply IH; [apply serve_sessions_sound|].
Qed.

(** X6: In every database reached from the empty one, whichever store calls
    rejected on the way, every session has at least one card record and is
    on a deck that exists. *)
Theorem session_has_cards_and_deck (calls : list (Env * Request)) sid s :
  Forall (λ c, fair c.1) calls →
  sessions (foldl serve empty_store calls) !! sid = Some s →
  (0 < length (flashcards s))%nat ∧
  is_Some (decks (foldl serve empty_store calls) !! deck s).
Proof.
  intros Hf Hs.
  destruct (reachable_sessions_sound calls Hf sid s Hs) as [(Hne & _) Hd].
  split; [|done]. destruct (flashcards s); [done|cbn; lia].
Qed.

(** X7: In every database reached from the empty one, whichever store calls
    rejected on the way, the two tallies of a session add up to the attempts
    recorded on its cards. *)
Theorem score_counts_attempts (calls : list (Env * Request)) sid s :
  Forall (λ c, fair c.1) calls →
  sessions (foldl serve empty_store calls) !! sid = Some s →
  (correct (score s) + incorrect (score s))%N = total_attempts s.
Proof.
  intros Hf Hs.
  by destruct (reachable_sessions_sound calls Hf sid s Hs) as [(_ & ? & _) _].
Qed.

(** X8: In every database reached from the empty one, a card record has no
    attempts exactly when it is unanswered ([isCorrect] null). *)
Theorem unanswered_iff_untried (calls : list (Env * Request)) sid s c :
  Forall (λ c, fair c.1) calls →
  sessions (foldl serve empty_store calls) !! sid = Some s →
  c ∈ flashcards s →
  (attempts c = 0%N ↔ isCorrect c = None).
Proof.
  intros Hf Hs Hc.
  destruct (reachable_sessions_sound calls Hf sid s Hs)
    as [(_ & _ & Hall & _) _].
  rewrite Forall_forall in Hall. exact (Hall c Hc).
Qed.

Lemma sum_totalDuration_Some (l : list (N * StudySession)) :
  Forall (λ p, is_Some (totalDuration p.2)) l →
  is_Some (sum_totalDuration l).
Proof.
  unfold sum_totalDuration. generalize 0.
  induction l as [|p l IH]; intros a Hl; [by eexists|].
  apply Forall_cons in Hl as [[d Hd] Hl]. cbn. rewrite Hd. cbn.
  apply IH, Hl.
Qed.

(** ** Flashcards in the databases that can be reached *)

Lemma owned_sessions f st : cards_owned st → cards_owned (set_sessions f st).
Proof. intros H id c Hc. exact (H id c Hc). Qed.

Lemma owned_cards_alter (f : Flashcard → Flashcard) i st :
  (∀ c, fc_deck (f c) = fc_deck c ∧ fc_createdBy (f c) = fc_createdBy c) →
  cards_owned st → cards_owned (set_cards (alter f i) st).
Proof.
  intros Hf H id c. cbn. rewrite lookup_alter. case_decide; [|apply H].
  subst. destruct (cards st !! id) as [c0|] eqn:Hc0; [|done].
  intros [= <-]. destruct (Hf c0) as [-> ->]. by apply (H id).
Qed.

Lemma owned_cards_insert i c d st :
  decks st !! fc_deck c = Some d → deck_createdBy d = fc_createdBy c →
  cards_owned st → cards_owned (set_cards <[i := c]> st).
Proof.
  intros Hd Ho H id c'. cbn. rewrite lookup_insert.
  case_decide; [intros [= <-]; eauto|apply H].
Qed.

Lemma owned_cards_delete i st :
  cards_owned st → cards_owned (set_cards (delete i) st).
Proof.
  intros H id c. cbn. rewrite lookup_delete. case_decide; [done|apply H].
Qed.

Lemma owned_cards_filter (P : N * Flashcard → Prop)
  `{!∀ p, Decision (P p)} st :
  cards_owned st → cards_owned (set_cards (filter P) st).
Proof.
  intros Hst id c Hc. apply map_lookup_filter_Some_1_1 in Hc.
  exact (Hst id c Hc).
Qed.

Lemma owned_decks_alter (f : Deck → Deck) i st :
  (∀ d, deck_createdBy (f d) = deck_createdBy d) →
  cards_owned st → cards_owned (set_decks (alter f i) st).
Proof.
  intros Hf H id c Hc. destruct (H id c Hc) as (d & Hd & Ho). cbn.
  rewrite lookup_alter. case_decide; subst; rewrite Hd; cbn; eauto.
  eexists. split; [done|]. by rewrite Hf.
Qed.

Lemma owned_decks_insert i d st :
  decks st !! i = None →
  cards_owned st → cards_owned (set_decks <[i := d]> st).
Proof.
  intros Hi H id c Hc. destruct (H id c Hc) as (d' & Hd & Ho). cbn.
  rewrite lookup_insert_ne; [eauto|congruence].
Qed.

Lemma owned_deck_deleted i g st :
  cards_owned st →
  cards_owned
    (set_decks (delete i)
       (set_sessions g (set_cards (filter (λ p, ¬ in_deck i p)) st))).
Proof.
  intros H id c Hc. cbn in Hc.
  apply map_lookup_filter_Some in Hc as [Hc Hne]. unfold in_deck in Hne.
  cbn in Hne. destruct (H id c Hc) as (d & Hd & Ho). cbn.
  rewrite lookup_delete_ne; [eauto|congruence].
Qed.

Ltac owned_leaf :=
  repeat first
    [ assumption
    | apply owned_deck_deleted
    | apply owned_sessions
    | apply owned_cards_filter
    | apply owned_cards_delete
    | apply owned_cards_alter; [by intros []|]
    | apply owned_decks_alter; [by intros []|]
    | apply owned_decks_insert; [assumption|]
    | eapply owned_cards_insert;
      [ cbn; eassumption | cbn; eqb_facts; congruence | ] ].

Lemma serve_cards_owned st c : cards_owned st → cards_owned (serve st c).
Proof.
  destruct c as [env r]. intros H. unfold serve. cbn [fst snd].
  destruct r; crack; try done.
  all: owned_leaf.
Qed.

Lemma empty_cards_owned : cards_owned empty_store.
Proof. intros id c Hc. cbn in Hc. by rewrite lookup_empty in Hc. Qed.

(** X9: In every database reached from the empty one, whichever store calls
    rejected on the way, every flashcard is in a deck that exists and that
    belongs to the flashcard's creator. *)
Theorem flashcards_never_orphaned (calls : list (Env * Request)) id c :
  cards (foldl serve empty_store calls) !! id = Some c →
  ∃ d, decks (foldl serve empty_store calls) !! fc_deck c = Some d ∧
       deck_createdBy d = fc_createdBy c.
Proof.
  revert id c. change (cards_owned (foldl serve empty_store calls)).
  generalize empty_cards_owned. generalize empty_store.
  induction calls as [|c calls IH]; intros st Hst; [done|].
  cbn. by apply IH, serve_cards_owned.
Qed.

(** ** The routes one by one *)

Ltac open_quiet Hq := unfold_routes; rewrite ?Hq; tidy.

(** X10: When its store calls resolve, the owner's [DELETE /decks/:id] is
    answered 200 and removes the deck, exactly the flashcards of the deck
    and exactly the sessions on the deck; every other deck, flashcard and
    session stays as it is. *)
Theorem DeleteDeck_cascade env uid id d st :
  quiet env →
  decks st !! id = Some d → deck_createdBy d = uid →
  let r := DeleteDeck env uid id st in
  r.2 = Success 200 () ∧
  decks r.1 !! id = None ∧
  (∀ did, did ≠ id → decks r.1 !! did = decks st !! did) ∧
  (∀ cid c, cards r.1 !! cid = Some c ↔
            cards st !! cid = Some c ∧ fc_deck c ≠ id) ∧
  (∀ sid s, sessions r.1 !! sid = Some s ↔
            sessions st !! sid = Some s ∧ deck s ≠ id).
Proof.
  intros Hq Hd Hu. cbn zeta. open_quiet Hq.
  rewrite Hd. rewrite <- Hu, N.eqb_refl. tidy.
  split; [done|]. split; [apply lookup_delete_eq|].
  split; [by intros did Hne; apply lookup_delete_ne|].
  split; intros k x; apply map_lookup_filter_Some.
Qed.

(** X11: The routes that write to a deck or a flashcard answer 404 to anybody
    but the owner, public deck or not, and to a missing document alike,
    and write nothing. *)
Theorem writes_are_owner_only env uid did cid b cb st :
  rejects env DeckM op_findOne = false →
  rejects env FlashcardM op_findOne = false →
  (∀ d, decks st !! did = Some d → deck_createdBy d ≠ uid) →
  (∀ c, cards st !! cid = Some c → fc_createdBy c ≠ uid) →
  UpdateDeck env uid did true b st
  = (st, Failure 404 "Deck not found or not authorized") ∧
  DeleteDeck env uid did st
  = (st, Failure 404 "Deck not found or not authorized") ∧
  CreateFlashcard env uid did true cb st
  = (st, Failure 404 "Deck not found or not authorized") ∧
  UpdateFlashcard env uid cid true cb st
  = (st, Failure 404 "Flashcard not found or not authorized") ∧
  DeleteFlashcard env uid cid st
  = (st, Failure 404 "Flashcard not found or not authorized").
Proof.
  intros Hr Hr' Hd Hc. unfold_routes. rewrite Hr, Hr'. tidy.
  assert (match decks st !! did with
          | Some d => if (deck_createdBy d =? uid)%N then Some d else None
          | None => None
          end = None) as ->.
  { destruct (decks st !! did) as [d|] eqn:E; [|done].
    specialize (Hd d eq_refl). apply N.eqb_neq in Hd. by rewrite Hd. }
  assert (match cards st !! cid with
          | Some c => if (fc_createdBy c =? uid)%N then Some c else None
          | None => None
          end = None) as ->.
  { destruct (cards st !! cid) as [c|] eqn:E; [|done].
    specialize (Hc c eq_refl). apply N.eqb_neq in Hc. by rewrite Hc. }
  done.
Qed.

(** X12: A session that is missing and a session of another user get the same
    answer from [RecordOutcome] and [CompleteSession]: 404, and nothing
    written. *)
Theorem sessions_are_private env uid sid fid b t st :
  rejects env StudySessionM op_findOne = false →
  (∀ s, sessions st !! sid = Some s → user s ≠ uid) →
  RecordOutcome env uid sid fid b t st
  = (st, Failure 404 "Study session not found") ∧
  CompleteSession env uid sid st
  = (st, Failure 404 "Study session not found").
Proof.
  intros Hr Ho. unfold_routes. rewrite Hr. tidy.
  destruct (sessions st !! sid) as [s|] eqn:Hs; [|done].
  specialize (Ho s eq_refl). apply N.eqb_neq in Ho. by rewrite Ho.
Qed.

(** X13: A deck that is missing and a private deck of another user get the same
    answer from [StartSession] and [GET /decks/:id]: 404, and nothing
    written. *)
Theorem hidden_deck_not_found env uid id st :
  rejects env DeckM op_findOne = false →
  (∀ d, decks st !! id = Some d →
        deck_createdBy d ≠ uid ∧ isPublic d = false) →
  StartSession env uid id st
  = (st, Failure 404 "Deck not found or not authorized") ∧
  GetDeck env uid id st = (st, Failure 404 "Deck not found").
Proof.
  intros Hr Ho. unfold_routes. rewrite Hr. tidy.
  destruct (decks st !! id) as [d|] eqn:Hd; [|done].
  destruct (Ho d eq_refl) as [Hu ->]. apply N.eqb_neq in Hu.
  by rewrite Hu.
Qed.

Lemma reachable_counted (calls : list (Env * Request)) :
  Forall (λ c, quiet c.1) calls →
  cards_counted (foldl serve empty_store calls).
Proof.
  generalize empty_counted. generalize empty_store.
  induction calls as [|c calls IH]; intros st Hst Hq; [done|].
  apply Forall_cons in Hq as [Hc Hq]. cbn.
  by apply IH; [apply serve_counted|].
Qed.

(** X14: In every database reached from the empty one with all store calls
    resolving, the flashcard count that [GET /decks/:id] reports for a deck
    the caller may see is the deck's stored [totalCards]. *)
Theorem GetDeck_count_is_totalCards (calls : list (Env * Request))
  env uid id d :
  Forall (λ c, quiet c.1) calls → quiet env →
  decks (foldl serve empty_store calls) !! id = Some d →
  deck_createdBy d = uid ∨ isPublic d = true →
  ∃ n, GetDeck env uid id (foldl serve empty_store calls)
       = (foldl serve empty_store calls, Success 200 (d, n)) ∧
       Z.of_nat n = totalCards (deck_statistics d).
Proof.
  intros Hcalls Hq Hd Hvis.
  pose proof (reachable_counted calls Hcalls id) as Hn.
  rewrite Hd in Hn. unfold live_count in Hn.
  open_quiet Hq. rewrite Hd.
  assert ((deck_createdBy d =? uid)%N || isPublic d = true) as ->.
  { destruct Hvis as [<-| ->]; [by rewrite N.eqb_refl|apply orb_true_r]. }
  tidy. eauto.
Qed.

Lemma findIndex_first fid cs i :
  findIndex fid cs = Some i →
  ∃ c, cs !! i = Some c ∧ flashcard c = fid ∧
       ∀ j c', cs !! j = Some c' → (j < i)%nat → flashcard c' ≠ fid.
Proof.
  unfold findIndex. destruct (list_find _ cs) as [[j c]|] eqn:E; [|done].
  intros [= <-]. apply list_find_Some in E as (Hi & Hc & Hfirst). eauto.
Qed.

Lemma RecordOutcome_success_store env uid sid fid b t st st' s' :
  RecordOutcome env uid sid fid b t st = (st', Success 200 s') →
  st' = set_sessions <[sid := s']>
          (set_cards (alter (if b then inc_correctAnswers
                             else inc_incorrectAnswers) fid) st).
Proof. crack; intros; by simplify_eq. Qed.

(** X15: A successful [RecordOutcome] adds one to [correctAnswers] or to
    [incorrectAnswers] of the flashcard, as the answer was, and leaves the
    rest of the flashcard, the other flashcards and the decks as they
    are; when the flashcard is no longer stored the request still succeeds
    and no flashcard changes. *)
Theorem RecordOutcome_forwards_statistic env uid sid fid b t st st' s' :
  RecordOutcome env uid sid fid b t st = (st', Success 200 s') →
  decks st' = decks st ∧
  (∀ cid, cid ≠ fid → cards st' !! cid = cards st !! cid) ∧
  match cards st !! fid with
  | None => cards st' !! fid = None
  | Some c =>
      ∃ c', cards st' !! fid = Some c' ∧
        correctAnswers (fc_statistics c')
        = correctAnswers (fc_statistics c) + (if b then 1 else 0) ∧
        incorrectAnswers (fc_statistics c')
        = incorrectAnswers (fc_statistics c) + (if b then 0 else 1) ∧
        totalViews (fc_statistics c') = totalViews (fc_statistics c) ∧
        fc_deck c' = fc_deck c ∧ fc_createdBy c' = fc_createdBy c ∧
        question c' = question c ∧ answer c' = answer c
  end.
Proof.
  intros ->%RecordOutcome_success_store. cbn.
  split; [done|]. split; [by intros; apply lookup_alter_ne|].
  rewrite lookup_alter_eq. destruct (cards st !! fid) as [c|]; [|done].
  destruct b; cbn; eexists; (split; [done|]); repeat split; cbn; lia.
Qed.

(** X16: A successful [RecordOutcome] changes one card record, the first of the
    snapshot that holds the flashcard: its outcome is the answer, its time
    spent grows by the time submitted and its attempts by one.  The other
    records of the session and the other sessions are as before. *)
Theorem RecordOutcome_touches_one_record env uid sid fid b t st st' s' :
  RecordOutcome env uid sid fid b t st = (st', Success 200 s') →
  ∃ s i c,
    sessions st !! sid = Some s ∧ user s = uid ∧
    flashcards s !! i = Some c ∧ flashcard c = fid ∧
    (∀ j c', flashcards s !! j = Some c' → (j < i)%nat →
             flashcard c' ≠ fid) ∧
    flashcards s' !! i
    = Some {| flashcard := fid; isCorrect := Some b;
              timeSpent := timeSpent c + t;
              attempts := N.succ (attempts c) |} ∧
    (∀ j, j ≠ i → flashcards s' !! j = flashcards s !! j) ∧
    sessions st' !! sid = Some s' ∧
    (∀ sid', sid' ≠ sid → sessions st' !! sid' = sessions st !! sid').
Proof.
  crack; intros; simplify_eq; tidy; eqb_facts.
  all: match goal with
       | Hi : findIndex _ _ = Some ?i |- _ =>
           apply findIndex_first in Hi as (c & Hc & Hfid & Hfirst);
           eexists _, i, c
       end.
  all: repeat (split; [done|]).
  all: cbn; split; [by rewrite list_lookup_alter_eq, Hc; subst|].
  all: split; [by intros j Hj; apply list_lookup_alter_ne|].
  all: split; [apply lookup_insert_eq|].
  all: by intros sid' Hne; apply lookup_insert_ne.
Qed.

(** X17: When [save()] rejects, [RecordOutcome] answers 500 and the session is
    as it was, but the flashcard's counter has been incremented: the
    statistics of the flashcard and the score of the session part. *)
Theorem RecordOutcome_save_rejected env uid sid fid b t st s i :
  rejects env StudySessionM op_findOne = false →
  rejects env FlashcardM op_findByIdAndUpdate = false →
  rejects env StudySessionM op_save = true →
  sessions st !! sid = Some s → user s = uid →
  findIndex fid (flashcards s) = Some i →
  let r := RecordOutcome env uid sid fid b t st in
  r.2 = Failure 500 "Server error" ∧
  sessions r.1 = sessions st ∧
  cards r.1 = alter (if b then inc_correctAnswers
                     else inc_incorrectAnswers) fid (cards st).
Proof.
  intros Hf Hu Hs Hst Huser Hi. cbn zeta.
  rewrite (RecordOutcome_found _ _ _ _ _ _ _ s i) by done.
  rewrite Hu, Hs. cbn zeta. by destruct (percentage_of _).
Qed.

(** X18: When the deck update rejects after the flashcard was created,
    [POST /decks/:deckId/cards] answers 500, the flashcard is stored and the
    deck's [totalCards] is not incremented: the deck has one flashcard more
    than it counts. *)
Theorem CreateFlashcard_count_not_atomic env uid did b st d :
  rejects env DeckM op_findOne = false →
  rejects env FlashcardM op_create = false →
  rejects env DeckM op_findByIdAndUpdate = true →
  decks st !! did = Some d → deck_createdBy d = uid →
  cards st !! newId env = None →
  let r := CreateFlashcard env uid did true b st in
  r.2 = Failure 500 "Server error" ∧
  is_Some (cards r.1 !! newId env) ∧
  live_count did r.1 = S (live_count did st) ∧
  decks r.1 = decks st.
Proof.
  intros Hf Hc Hu Hd Ho Hid. cbn zeta. unfold_routes.
  rewrite Hf, Hc, Hu. tidy. rewrite Hd. rewrite <- Ho, N.eqb_refl. tidy.
  rewrite Hid. tidy. split; [done|]. split.
  - cbn. rewrite lookup_insert_eq. by eexists.
  - split; [|done]. unfold live_count. cbn.
    rewrite count_insert_fresh by done. cbn. by rewrite decide_True.
Qed.

(** X19: When deleting the sessions rejects, [DELETE /decks/:id] answers 500
    with the flashcards of the deck already deleted and the deck and the
    sessions still stored. *)
Theorem DeleteDeck_not_atomic env uid id st d :
  rejects env DeckM op_findOne = false →
  rejects env FlashcardM op_deleteMany = false →
  rejects env StudySessionM op_deleteMany = true →
  decks st !! id = Some d → deck_createdBy d = uid →
  let r := DeleteDeck env uid id st in
  r.2 = Failure 500 "Server error" ∧
  decks r.1 = decks st ∧ sessions r.1 = sessions st ∧
  live_count id r.1 = 0%nat ∧
  (∀ cid c, cards r.1 !! cid = Some c ↔
            cards st !! cid = Some c ∧ fc_deck c ≠ id).
Proof.
  intros Hf Hc Hs Hd Ho. cbn zeta. unfold_routes.
  rewrite Hf, Hc, Hs. tidy. rewrite Hd. rewrite <- Ho, N.eqb_refl. tidy.
  repeat (split; [done|]). split.
  - unfold live_count. cbn. rewrite count_deleteMany. by rewrite decide_True.
  - intros cid c. apply map_lookup_filter_Some.
Qed.

(** X20: When the deck update rejects, [CompleteSession] answers 500 although the
    session has been stored as completed; the deck has received nothing. *)
Theorem CompleteSession_deck_update_rejected env uid sid st s :
  rejects env StudySessionM op_findOne = false →
  rejects env StudySessionM op_save = false →
  rejects env DeckM op_findByIdAndUpdate = true →
  sessions st !! sid = Some s → user s = uid →
  let r := CompleteSession env uid sid st in
  r.2 = Failure 500 "Server error" ∧
  sessions r.1 !! sid = Some (completed_at (now env) s) ∧
  decks r.1 = decks st ∧ cards r.1 = cards st.
Proof.
  intros Hf Hs Hu Hst Huser. cbn zeta.
  rewrite (CompleteSession_found _ _ _ _ s) by done.
  rewrite Hs, Hu. cbn. by rewrite lookup_insert_eq.
Qed.

(** ** Round trips *)

Lemma store_eq (st st' : Store) :
  decks st' = decks st → cards st' = cards st →
  sessions st' = sessions st → st' = st.
Proof. destruct st, st'. cbn. by intros -> -> ->. Qed.

Lemma inc_totalCards_back d : inc_totalCards (-1) (inc_totalCards 1 d) = d.
Proof.
  destruct d as [? ? ? ? ? ? ? []]. unfold inc_totalCards. cbn.
  do 2 f_equal. lia.
Qed.

(** X21: Creating a deck and deleting it again gives the database back as it
    was, when nothing referred to the new deck's [_id] before. *)
Theorem CreateDeck_DeleteDeck_round_trip env1 env2 uid b st :
  quiet env1 → quiet env2 →
  decks st !! newId env1 = None →
  (∀ cid c, cards st !! cid = Some c → fc_deck c ≠ newId env1) →
  (∀ sid s, sessions st !! sid = Some s → deck s ≠ newId env1) →
  (CreateDeck env1 uid true b st).2 = Success 201 (newId env1) ∧
  DeleteDeck env2 uid (newId env1) (CreateDeck env1 uid true b st).1
  = (st, Success 200 ()).
Proof.
  intros Hq1 Hq2 Hid Hcards Hsessions. open_quiet Hq1. rewrite Hid. tidy.
  split; [done|]. rewrite !Hq2. tidy. rewrite lookup_insert_eq. cbn.
  rewrite N.eqb_refl. tidy. f_equal. apply store_eq; cbn.
  - by apply delete_insert_id.
  - apply map_filter_id. intros cid c Hc. unfold in_deck. cbn.
    by apply (Hcards cid).
  - apply map_filter_id. intros sid s Hs. cbn. by apply (Hsessions sid).
Qed.

(** X22: Creating a flashcard in one's deck and deleting it again gives the
    database back as it was, the deck's [totalCards] included. *)
Theorem CreateFlashcard_DeleteFlashcard_round_trip env1 env2 uid did b st d :
  quiet env1 → quiet env2 →
  decks st !! did = Some d → deck_createdBy d = uid →
  cards st !! newId env1 = None →
  (CreateFlashcard env1 uid did true b st).2 = Success 201 (newId env1) ∧
  DeleteFlashcard env2 uid (newId env1)
    (CreateFlashcard env1 uid did true b st).1
  = (st, Success 200 ()).
Proof.
  intros Hq1 Hq2 Hd Ho Hid. open_quiet Hq1. rewrite Hd.
  rewrite <- Ho, N.eqb_refl. tidy. rewrite Hid. tidy.
  split; [done|]. rewrite !Hq2. tidy. rewrite lookup_insert_eq. cbn.
  rewrite N.eqb_refl. tidy. f_equal.
  apply store_eq; cbn; [|by apply delete_insert_id|done].
  apply map_eq. intros j. destruct (decide (did = j)) as [<-|].
  - rewrite !lookup_alter_eq, Hd.
    change (Some (inc_totalCards (-1) (inc_totalCards 1 d)) = Some d).
    by rewrite inc_totalCards_back.
  - by rewrite !lookup_alter_ne.
Qed.

(** ** Updates and views *)

Lemma or_string_falsy o s : falsy o → Js.or_string o s = s.
Proof. by intros [-> | ->]. Qed.

Lemma alter_fixed {A} (f : A → A) i (m : gmap N A) :
  (∀ x, m !! i = Some x → f x = x) → alter f i m = m.
Proof.
  intros Hf. apply map_eq. intros j. rewrite lookup_alter.
  case_decide; [|done]. subst. destruct (m !! j) as [x|] eqn:Hx; [|done].
  cbn. by rewrite Hf.
Qed.

(** What the handler of [PUT /decks/:id] makes of fields that [||] passes
    over. *)
Lemma UpdateDeck_falsy_body env uid id b st d :
  quiet env →
  decks st !! id = Some d → deck_createdBy d = uid →
  falsy (b_name b) → falsy (b_description b) → falsy (b_category b) →
  falsy (b_color b) → b_isPublic b = None → b_settings b = None →
  UpdateDeck env uid id true b st = (st, Success 200 ()).
Proof.
  intros Hq Hd Ho Hn Hdesc Hcat Hcol Hpub Hset. open_quiet Hq.
  rewrite Hd. rewrite <- Ho, N.eqb_refl. tidy. f_equal.
  apply store_eq; cbn; try done. apply alter_fixed.
  intros x Hx. rewrite Hd in Hx. injection Hx as <-.
  unfold update_deck. rewrite !or_string_falsy, Hpub, Hset by done.
  destruct d. cbn. f_equal. by destruct Hdesc as [-> | ->].
Qed.

(** X23: [PUT /decks/:id] with its validation chain.  Without a [name], a
    body in which [description] is left out or white space only, [category]
    and [color] are left out or empty, and [isPublic] and [settings] are
    left out, is no change: the owner is answered 200 and the database
    stays as it is, so a description cannot be emptied.  A [name] of white
    space only does not pass the validation: the answer is 400 and the
    database stays as it is. *)
Theorem PutDeck_blank_fields env uid id b st :
  (∀ d, quiet env →
        decks st !! id = Some d → deck_createdBy d = uid →
        b_name b = None → blank (b_description b) →
        falsy (b_category b) → falsy (b_color b) →
        b_isPublic b = None → b_settings b = None →
        PutDeck env uid id b st = (st, Success 200 ())) ∧
  (∀ n, b_name b = Some n → Validator.trim n = "" →
        PutDeck env uid id b st = (st, Failure 400 "Validation error")).
Proof.
  split.
  - intros d Hq Hd Ho Hn Hdesc Hcat Hcol Hpub Hset.
    unfold PutDeck, deck_update_chain. rewrite Hn.
    destruct (b_description b) as [s|] eqn:Hs.
    + cbn [Validator.optional fst snd]. rewrite (Hdesc s eq_refl).
      apply (UpdateDeck_falsy_body env uid id _ st d); try done;
        by (left + right).
    + apply (UpdateDeck_falsy_body env uid id _ st d); try done;
        by (left + right).
  - intros n Hn Hblank. unfold PutDeck, deck_update_chain. rewrite Hn.
    cbn [Validator.optional fst snd]. rewrite Hblank. reflexivity.
Qed.

(** [POST /decks] stores the name and the category without the white space
    around them, and turns down a name of white space only. *)
Example PostDeck_trims :
  decks (PostDeck (calm 0 Sample.math id) Sample.alice
           {| b_name := Some " Math "; b_description := None;
              b_category := Some "sums "; b_isPublic := None;
              b_color := None; b_settings := None |} empty_store).1
    !! Sample.math
  = Some (Sample.deck_of Sample.alice 0) ∧
  PostDeck (calm 0 Sample.math id) Sample.alice
    {| b_name := Some "  "; b_description := None;
       b_category := Some "sums"; b_isPublic := None;
       b_color := None; b_settings := None |} empty_store
  = (empty_store, Failure 400 "Validation error").
Proof. split; vm_compute; reflexivity. Qed.

(** [POST /decks/:deckId/cards] turns down a flashcard without an answer,
    and [PUT /:id] a question of white space only. *)
Example flashcard_chains :
  PostFlashcard Scene.at_noon Sample.alice Sample.math
    {| b_question := Some "2 + 2"; b_answer := None;
       b_card_category := None; b_difficulty := None; b_tags := None |}
    Scene.library
  = (Scene.library, Failure 400 "Validation error") ∧
  PutFlashcard Scene.at_noon Sample.alice 101
    {| b_question := Some " "; b_answer := None;
       b_card_category := None; b_difficulty := None; b_tags := None |}
    Scene.library
  = (Scene.library, Failure 400 "Validation error") ∧
  (PutFlashcard Scene.at_noon Sample.alice 101
     {| b_question := Some " 3 + 3 "; b_answer := Some "6";
        b_card_category := None; b_difficulty := None; b_tags := None |}
     Scene.library).2
  = Success 200 ().
Proof. repeat split; vm_compute; reflexivity. Qed.

(** X24: [GET /:id] by the creator of the flashcard answers 200 with the
    flashcard as it was read, before the view is counted, and adds one to
    its [totalViews]; nothing else changes. *)
Theorem GetFlashcard_counts_the_view env uid id c st :
  quiet env →
  cards st !! id = Some c → fc_createdBy c = uid →
  let r := GetFlashcard env uid id st in
  r.2 = Success 200 c ∧
  decks r.1 = decks st ∧ sessions r.1 = sessions st ∧
  (∀ cid, cid ≠ id → cards r.1 !! cid = cards st !! cid) ∧
  ∃ c', cards r.1 !! id = Some c' ∧
    totalViews (fc_statistics c') = totalViews (fc_statistics c) + 1 ∧
    correctAnswers (fc_statistics c') = correctAnswers (fc_statistics c) ∧
    incorrectAnswers (fc_statistics c')
    = incorrectAnswers (fc_statistics c) ∧
    fc_deck c' = fc_deck c ∧ fc_createdBy c' = fc_createdBy c.
Proof.
  intros Hq Hc Ho. cbn zeta. open_quiet Hq. rewrite Hc.
  rewrite <- Ho, N.eqb_refl. tidy. repeat (split; [done|]).
  split; [by intros cid Hne; apply lookup_alter_ne|].
  cbn. rewrite lookup_alter_eq, Hc. cbn. eexists. by repeat split.
Qed.

(** X25: Whatever [PUT /:id] is sent and whichever store calls reject, no
    flashcard is removed, moved to another deck or given another owner, no
    statistics change, and the flashcards other than the one addressed are
    as before; decks and sessions are not touched. *)
Theorem UpdateFlashcard_keeps_deck_and_statistics env uid id valid b st
  cid c :
  cards st !! cid = Some c →
  let st' := (UpdateFlashcard env uid id valid b st).1 in
  decks st' = decks st ∧ sessions st' = sessions st ∧
  ∃ c', cards st' !! cid = Some c' ∧
    fc_deck c' = fc_deck c ∧ fc_createdBy c' = fc_createdBy c ∧
    fc_statistics c' = fc_statistics c ∧
    (cid ≠ id → c' = c).
Proof.
  intros Hc. cbn zeta. crack; repeat (split; [done|]);
    try (by exists c).
  cbn. rewrite lookup_alter. case_decide; subst.
  - rewrite Hc. cbn. eexists. by repeat split.
  - by exists c.
Qed.

(** ** The statistics handler, continued *)

Lemma insert_newest_perm p l : insert_newest p l ≡ₚ p :: l.
Proof.
  induction l as [|q l IH]; [done|]. cbn.
  destruct (createdAt q.2 <=? createdAt p.2); [done|].
  rewrite IH. apply perm_swap.
Qed.

Lemma sort_newest_perm l : sort_newest l ≡ₚ l.
Proof.
  induction l as [|p l IH]; [done|]. unfold sort_newest in *. cbn.
  by rewrite insert_newest_perm, IH.
Qed.

Lemma insert_newest_sorted p l :
  StronglySorted newer_first l → StronglySorted newer_first (insert_newest p l).
Proof.
  induction 1 as [|q l Hl IH Hq]; cbn; [by repeat constructor|].
  destruct (Z.leb_spec (createdAt q.2) (createdAt p.2)) as [Hle|Hlt].
  - constructor; [by constructor|]. constructor; [done|].
    eapply Forall_impl; [exact Hq|]. unfold newer_first. intros; lia.
  - constructor; [done|].
    rewrite insert_newest_perm. constructor; [|done].
    unfold newer_first. lia.
Qed.

Lemma sort_newest_sorted l : StronglySorted newer_first (sort_newest l).
Proof.
  induction l as [|p l IH]; [constructor|]. by apply insert_newest_sorted.
Qed.

Lemma GetUserStatistics_success env uid range st st' r :
  GetUserStatistics env uid range st = (st', Success 200 r) →
  st' = st ∧
  ∃ since,
    dateFilter (now env) (timeRange_of range) = Some <$> since ∧
    r = report_of st uid since.
Proof.
  unfold_routes. tidy.
  destruct (dateFilter _ _) as [[t|]|] eqn:Hw; tidy; [|done|].
  - repeat (crack_step; tidy); intros; simplify_eq.
    split; [done|]. by exists (Some t).
  - repeat (crack_step; tidy); intros; simplify_eq.
    split; [done|]. by exists None.
Qed.

Lemma GetUserStatistics_quiet env uid range st since :
  quiet env →
  dateFilter (now env) (timeRange_of range) = Some <$> since →
  GetUserStatistics env uid range st
  = (st, Success 200 (report_of st uid since)).
Proof.
  intros Hq Hw. open_quiet Hq. rewrite Hw. by destruct since.
Qed.

(** For a user without a completed session, the handler answers 200 with
    no sessions, a study time of 0, an average score of 0 and no recent
    activity. *)
Lemma GetUserStatistics_without_sessions env uid range st since :
  quiet env →
  dateFilter (now env) (timeRange_of range) = Some <$> since →
  (∀ sid s, sessions st !! sid = Some s → user s = uid →
            isCompleted s = false) →
  ∃ r, GetUserStatistics env uid range st = (st, Success 200 r) ∧
    totalSessions (overview r) = 0%nat ∧
    ov_totalStudyTime (overview r) = Some 0 ∧
    ov_averageScore (overview r) = Some 0 ∧
    recentActivity r = [].
Proof.
  intros Hq Hw Hnone.
  assert (∀ w, filter (completed_since uid w) (sessions st) = ∅) as Hempty.
  { intros w. apply map_empty. intros sid.
    apply map_lookup_filter_None_2. right. intros s Hs (Hu & Hc & _).
    cbn in *. by rewrite (Hnone sid s Hs Hu) in Hc. }
  eexists. split; [by apply GetUserStatistics_quiet|].
  unfold report_of. cbn. rewrite !Hempty, map_to_list_empty. done.
Qed.

(** The window only bears on the figures of the sessions: for two ranges
    of which the first window lies within the second, the handler's report
    for the first counts no more sessions than that for the second, and
    both have the same number of decks, the same number of flashcards and
    the same recent activity. *)
Lemma window_only_changes_session_figures env uid range1 range2 st
  since1 since2 :
  quiet env →
  dateFilter (now env) (timeRange_of range1) = Some <$> since1 →
  dateFilter (now env) (timeRange_of range2) = Some <$> since2 →
  within since1 since2 →
  ∃ r1 r2,
    GetUserStatistics env uid range1 st = (st, Success 200 r1) ∧
    GetUserStatistics env uid range2 st = (st, Success 200 r2) ∧
    (totalSessions (overview r1) ≤ totalSessions (overview r2))%nat ∧
    totalDecks (overview r1) = totalDecks (overview r2) ∧
    totalFlashcards (overview r1) = totalFlashcards (overview r2) ∧
    recentActivity r1 = recentActivity r2.
Proof.
  intros Hq H1 H2 Hin. eexists _, _.
  split; [by apply GetUserStatistics_quiet|].
  split; [by apply GetUserStatistics_quiet|].
  split; [|done]. cbn. rewrite !length_map_to_list.
  apply map_subseteq_size, map_filter_subseteq_ext.
  intros sid s _ (Hu & Hc & Ht). repeat split; try done.
  destruct since1 as [a|], since2 as [b|]; cbn in *; try done. lia.
Qed.

Lemma fst_populate_deck ds (l : list (N * StudySession)) :
  fst <$> (populate_deck ds <$> l) = l.
Proof. induction l as [|p l IH]; [done|]. cbn. by rewrite IH. Qed.

(** In a report of the handler, the recent activity has five entries, or
    all the caller's completed sessions when there are fewer; it is ordered
    newest first; every entry is a stored completed session of the caller
    with the name and category of its deck; and no completed session of
    the caller that is left out is newer than one that is listed. *)
Lemma recentActivity_newest_five env uid range st st' r :
  GetUserStatistics env uid range st = (st', Success 200 r) →
  length (recentActivity r)
  = (5 `min` size (filter (completed_since uid None) (sessions st)))%nat ∧
  StronglySorted newer_first (fst <$> recentActivity r) ∧
  (∀ sid s info, (sid, s, info) ∈ recentActivity r →
     sessions st !! sid = Some s ∧ user s = uid ∧ isCompleted s = true ∧
     info = (λ d, (name d, deck_category d)) <$> decks st !! deck s) ∧
  (∀ sid s, sessions st !! sid = Some s → user s = uid →
     isCompleted s = true → (sid, s) ∉ fst <$> recentActivity r →
     ∀ p, p ∈ fst <$> recentActivity r → createdAt s ≤ createdAt p.2).
Proof.
  intros (-> & since & _ & ->)%GetUserStatistics_success.
  unfold report_of. cbn [recentActivity].
  set (m := filter (completed_since uid None) (sessions st)).
  set (sorted := sort_newest (map_to_list m)).
  assert (fst <$> (populate_deck (decks st) <$> take 5 sorted)
          = take 5 sorted) as Hfst.
  { apply fst_populate_deck. }
  pose proof (sort_newest_sorted (map_to_list m)) as Hsorted.
  fold sorted in Hsorted. rewrite <- (take_drop 5 sorted) in Hsorted.
  split; [|split; [|split]].
  - rewrite length_fmap, length_take. unfold sorted.
    by rewrite sort_newest_perm, length_map_to_list.
  - rewrite Hfst. by apply StronglySorted_app_1_l in Hsorted.
  - intros sid s info [[sid' s'] [Heq Hin]]%list_elem_of_fmap.
    unfold populate_deck in Heq. cbn in Heq. injection Heq as -> -> ->.
    apply subseteq_take in Hin. unfold sorted in Hin.
    rewrite sort_newest_perm in Hin.
    apply elem_of_map_to_list, map_lookup_filter_Some in Hin
      as [Hs (Hu & Hc & _)].
    by repeat split.
  - intros sid s Hs Hu Hc Hout p Hp. rewrite Hfst in Hout, Hp.
    assert ((sid, s) ∈ drop 5 sorted) as Hdrop.
    { assert ((sid, s) ∈ sorted) as Hin.
      { unfold sorted. rewrite sort_newest_perm.
        apply elem_of_map_to_list, map_lookup_filter_Some. by repeat split. }
      rewrite <- (take_drop 5 sorted) in Hin.
      apply elem_of_app in Hin as [?|?]; done. }
    exact (StronglySorted_app_1_elem_of _ _ _ _ _ Hsorted Hp Hdrop).
Qed.

Lemma filter_insert_other uid since sid s' (m : gmap N StudySession) :
  user s' ≠ uid →
  (∀ s, m !! sid = Some s → user s ≠ uid) →
  filter (completed_since uid since) (<[sid := s']> m)
  = filter (completed_since uid since) m.
Proof.
  intros Hs' Hs. apply map_filter_insert_not'.
  - by intros (? & _).
  - intros s Hm (? & _). by apply (Hs s).
Qed.

(** X29: The answer of [GET /statistics] does not depend on the sessions of other
    users: adding a session of somebody else, or writing over one, changes
    nothing in it. *)
Theorem statistics_ignore_other_users env uid range st sid s' :
  user s' ≠ uid →
  (∀ s, sessions st !! sid = Some s → user s ≠ uid) →
  (GetUserStatistics env uid range (set_sessions <[sid := s']> st)).2
  = (GetUserStatistics env uid range st).2.
Proof.
  intros Hs' Hs. unfold_routes. tidy.
  destruct (dateFilter _ _) as [[t|]|]; tidy; try done.
  all: repeat (destruct (rejects env _ _); tidy; try done).
  all: by rewrite !filter_insert_other.
Qed.

(** On a database reached from the empty one, whichever store calls
    rejected on the way, the total study time in the handler's report is a
    number. *)
Lemma study_time_is_a_number (calls : list (Env * Request)) env uid range
  since :
  Forall (λ c, fair c.1) calls →
  quiet env →
  dateFilter (now env) (timeRange_of range) = Some <$> since →
  ∃ r t,
    GetUserStatistics env uid range (foldl serve empty_store calls)
    = (foldl serve empty_store calls, Success 200 r) ∧
    ov_totalStudyTime (overview r) = Some t.
Proof.
  intros Hf Hq Hw. set (st := foldl serve empty_store calls).
  assert (is_Some (sum_totalDuration
            (map_to_list (filter (completed_since uid since) (sessions st)))))
    as [t Ht].
  { apply sum_totalDuration_Some, Forall_forall. intros [sid s] Hin.
    apply elem_of_map_to_list, map_lookup_filter_Some in Hin
      as [Hs (_ & Hdone & _)].
    destruct (reachable_sessions_sound calls Hf sid s Hs)
      as [(_ & _ & _ & Hd) _].
    by apply Hd. }
  eexists _, _. split; [by apply GetUserStatistics_quiet|].
  cbn. by rewrite Ht.
Qed.

(** ** Completed sessions *)

Ltac timed_leaf H Hs' :=
  first
    [ apply map_lookup_filter_Some_1_1 in Hs'; by eapply H
    | rewrite lookup_insert in Hs'; case_decide; simplify_eq;
      first [ by eapply H
            | by intros ?
            | by intros _; eexists
            | match goal with
              | Hs : sessions _ !! _ = Some ?s
                |- timed (with_progress ?s _ _) => exact (H _ _ Hs)
              end ] ].

Lemma serve_sessions_timed st c :
  sessions_timed st → sessions_timed (serve st c).
Proof.
  destruct c as [env r]. intros H sid s'. unfold serve. cbn [fst snd].
  destruct r; crack; intros Hs'; try (by eapply H).
  all: timed_leaf H Hs'.
Qed.

Lemma empty_sessions_timed : sessions_timed empty_store.
Proof. intros sid s Hs. cbn in Hs. by rewrite lookup_empty in Hs. Qed.

(** X30: In every database reached from the empty one, whichever store calls
    rejected on the way, a session that is marked completed has an end time
    and a duration, and the duration is the whole seconds from its start to
    its end: the three are only ever written together, and no other route
    writes any of them or the start. *)
Theorem completed_sessions_are_timed (calls : list (Env * Request)) sid s :
  sessions (foldl serve empty_store calls) !! sid = Some s →
  isCompleted s = true →
  ∃ e, endTime s = Some e ∧
       totalDuration s = Some ((e - startTime s) / 1000).
Proof.
  revert sid s. change (sessions_timed (foldl serve empty_store calls)).
  generalize empty_sessions_timed. generalize empty_store.
  induction calls as [|c calls IH]; intros st Hst; [done|].
  cbn. by apply IH, serve_sessions_timed.
Qed.

(** ** Which route answers *)

Lemma lower_statistics a :
  String.eqb a "" = true → String.eqb (lower a) "statistics" = false.
Proof. intros ->%String.eqb_eq. reflexivity. Qed.

(** Evaluate the table of the routes on a path whose segments are not
    known. *)
Ltac route_norm :=
  cbn [find fst snd matches fmap option_fmap option_map];
  repeat match goal with
    | |- context [bool_decide (?x = ?y)] =>
        let b := eval vm_compute in (bool_decide (x = y)) in
        change (bool_decide (x = y)) with b
    | |- context [lower (String ?c ?s)] =>
        let l := eval vm_compute in (lower (String c s)) in
        change (lower (String c s)) with l
    end;
  cbn [andb]; rewrite ?andb_false_r, ?andb_true_r.

(** X26: Every route of the file but one answers some request: the route
    [GET /statistics] answers none, whatever the verb and the path, the
    route [GET /:id] that is registered before it taking every path of one
    segment that [GET /decks] does not take. *)
Theorem only_statistics_is_shadowed r :
  (∃ v path, dispatch v path = Some r) ↔ r ≠ GetUserStatisticsR.
Proof.
  split.
  - intros (v & path & H) ->. revert H. unfold dispatch, router.
    destruct v; destruct path as [|a [|b [|c [|d path]]]]; route_norm;
      repeat (case_match; try done); try (by cbn).
    match goal with
    | Hs : String.eqb (lower ?a) "statistics" = true,
      He : negb (String.eqb ?a "") = false |- _ =>
        apply negb_false_iff in He;
        rewrite (lower_statistics a He) in Hs; discriminate Hs
    end.
  - intros Hr.
    destruct r; try done;
      [ exists GET, ["decks"] | exists POST, ["decks"]
      | exists GET, ["decks"; "1"] | exists PUT, ["decks"; "1"]
      | exists DELETE, ["decks"; "1"] | exists GET, ["decks"; "1"; "cards"]
      | exists POST, ["decks"; "1"; "cards"] | exists GET, ["1"]
      | exists PUT, ["1"] | exists DELETE, ["1"]
      | exists POST, ["study"; "1"] | exists PUT, ["study"; "1"]
      | exists PUT, ["study"; "1"; "complete"] ];
      reflexivity.
Qed.

(** ** The properties on a deck that was studied *)

Ltac all_fair := repeat (constructor; [intros l; reflexivity|]); constructor.
Ltac all_quiet :=
  repeat (constructor; [intros m op; reflexivity|]); constructor.

Lemma refused_writes_nothing_witness :
  (respond Scene.library
     (Scene.at_noon, DeleteDeckReq Scene.bob Sample.math)).1
  = Scene.library.
Proof.
  apply (refused_writes_nothing Scene.library
           (Scene.at_noon, DeleteDeckReq Scene.bob Sample.math) _ 404).
  - vm_compute. reflexivity.
  - lia.
Defined.

Lemma other_sessions_untouched_witness :
  ∃ s, sessions Scene.shelf !! Sample.session = Some s ∧
    sessions (serve Scene.shelf
                (Scene.at_noon,
                 RecordOutcomeReq Scene.bob Sample.session 101 false 1))
    !! Sample.session = Some s.
Proof.
  eexists. split; [vm_compute; reflexivity|].
  apply other_sessions_untouched.
  - vm_compute. reflexivity.
  - vm_compute. intros H. discriminate H.
  - intros H. discriminate H.
Defined.

Lemma foreign_deck_kept_witness :
  ∃ d, decks Scene.library !! Sample.math = Some d ∧
    ∃ d', decks (serve Scene.library
                   (Scene.at_noon,
                    UpdateDeckReq Scene.bob Sample.math true
                      Sample.deck_body))
          !! Sample.math = Some d' ∧ same_profile d d'.
Proof.
  eexists. split; [vm_compute; reflexivity|].
  apply foreign_deck_kept.
  - vm_compute. reflexivity.
  - vm_compute. intros H. discriminate H.
Defined.

Lemma session_continues_witness :
  ∃ s s', sessions Scene.opened !! Sample.session = Some s ∧
    sessions (serve Scene.opened
                (calm 20 0 id,
                 RecordOutcomeReq Sample.alice Sample.session 101 true 5))
    !! Sample.session = Some s' ∧
    continues s s'.
Proof.
  eexists _, _. split; [vm_compute; reflexivity|].
  split; [vm_compute; reflexivity|].
  eapply (session_continues Scene.opened (calm 20 0 id)
            (RecordOutcomeReq Sample.alice Sample.session 101 true 5)
            Sample.session).
  - vm_compute. reflexivity.
  - vm_compute. reflexivity.
Defined.

Lemma session_has_cards_and_deck_witness :
  ∃ s, sessions (foldl serve empty_store Scene.studied) !! Sample.session
       = Some s ∧
    (0 < length (flashcards s))%nat ∧
    is_Some (decks (foldl serve empty_store Scene.studied) !! deck s).
Proof.
  eexists. split; [vm_compute; reflexivity|].
  apply (session_has_cards_and_deck Scene.studied Sample.session).
  - all_fair.
  - vm_compute. reflexivity.
Defined.

Lemma score_counts_attempts_witness :
  ∃ s, sessions (foldl serve empty_store Scene.studied) !! Sample.session
       = Some s ∧
    (correct (score s) + incorrect (score s))%N = total_attempts s ∧
    total_attempts s = 1%N.
Proof.
  eexists. split; [vm_compute; reflexivity|].
  split; [|reflexivity].
  apply (score_counts_attempts Scene.studied Sample.session).
  - all_fair.
  - vm_compute. reflexivity.
Defined.

Lemma unanswered_iff_untried_witness :
  ∃ s c, sessions (foldl serve empty_store Scene.studied) !! Sample.session
         = Some s ∧
    flashcards s = [c] ∧
    (attempts c = 0%N ↔ isCorrect c = None).
Proof.
  eexists _, _. split; [vm_compute; reflexivity|].
  split; [reflexivity|].
  eapply (unanswered_iff_untried Scene.studied Sample.session).
  - all_fair.
  - vm_compute. reflexivity.
  - apply list_elem_of_here.
Defined.

Lemma flashcards_never_orphaned_witness :
  ∃ c, cards (foldl serve empty_store Scene.studied) !! 101%N = Some c ∧
    ∃ d, decks (foldl serve empty_store Scene.studied) !! fc_deck c = Some d ∧
      deck_createdBy d = fc_createdBy c.
Proof.
  eexists. split; [vm_compute; reflexivity|].
  apply (flashcards_never_orphaned Scene.studied 101%N).
  vm_compute. reflexivity.
Defined.

Lemma GetDeck_count_is_totalCards_witness :
  ∃ d, decks (foldl serve empty_store Sample.history) !! Sample.math = Some d ∧
    ∃ n, GetDeck Scene.at_noon Sample.alice Sample.math
           (foldl serve empty_store Sample.history)
         = (foldl serve empty_store Sample.history, Success 200 (d, n)) ∧
      Z.of_nat n = totalCards (deck_statistics d).
Proof.
  eexists. split; [vm_compute; reflexivity|].
  apply (GetDeck_count_is_totalCards Sample.history Scene.at_noon
           Sample.alice Sample.math).
  - all_quiet.
  - intros m op. reflexivity.
  - vm_compute. reflexivity.
  - left. reflexivity.
Defined.

Lemma DeleteDeck_cascade_witness :
  (DeleteDeck Scene.at_noon Sample.alice Sample.math Scene.shelf).2
  = Success 200 () ∧
  decks (DeleteDeck Scene.at_noon Sample.alice Sample.math Scene.shelf).1
  !! Sample.math = None.
Proof.
  simple refine
    (let H := DeleteDeck_cascade Scene.at_noon Sample.alice Sample.math _
                Scene.shelf _ _ _ in
     conj (proj1 H) (proj1 (proj2 H))).
  - shelve.
  - intros m op. reflexivity.
  - vm_compute. reflexivity.
  - reflexivity.
Defined.

Lemma writes_are_owner_only_witness :
  UpdateDeck Scene.at_noon Scene.bob Sample.math true Sample.deck_body
    Scene.library
  = (Scene.library, Failure 404 "Deck not found or not authorized").
Proof.
  refine (proj1 (writes_are_owner_only Scene.at_noon Scene.bob Sample.math
                   101%N Sample.deck_body Sample.card_body Scene.library
                   _ _ _ _)).
  - reflexivity.
  - reflexivity.
  - intros d Hd. vm_compute in Hd. injection Hd as <-.
    vm_compute. intros H. discriminate H.
  - intros c Hc. vm_compute in Hc. injection Hc as <-.
    vm_compute. intros H. discriminate H.
Defined.

Lemma sessions_are_private_witness :
  RecordOutcome Scene.at_noon Scene.bob Sample.session 101 true 5 Scene.shelf
  = (Scene.shelf, Failure 404 "Study session not found") ∧
  CompleteSession Scene.at_noon Scene.bob Sample.session Scene.shelf
  = (Scene.shelf, Failure 404 "Study session not found").
Proof.
  apply sessions_are_private.
  - reflexivity.
  - intros s Hs. vm_compute in Hs. injection Hs as <-.
    vm_compute. intros H. discriminate H.
Defined.

Lemma hidden_deck_not_found_witness :
  StartSession Scene.at_noon Scene.bob Sample.math Scene.library
  = (Scene.library, Failure 404 "Deck not found or not authorized") ∧
  GetDeck Scene.at_noon Scene.bob Sample.math Scene.library
  = (Scene.library, Failure 404 "Deck not found").
Proof.
  apply hidden_deck_not_found.
  - reflexivity.
  - intros d Hd. vm_compute in Hd. injection Hd as <-.
    split; [vm_compute; intros H; discriminate H|reflexivity].
Defined.

Lemma RecordOutcome_forwards_statistic_witness :
  ∃ st' s',
    RecordOutcome (calm 20 0 id) Sample.alice Sample.session 101 true 5
      Scene.opened = (st', Success 200 s') ∧
    decks st' = decks Scene.opened ∧
    (correctAnswers ∘ fc_statistics <$> cards st' !! 101%N) = Some 1.
Proof.
  eexists _, _. split; [vm_compute; reflexivity|].
  split; [|vm_compute; reflexivity].
  refine (proj1 (RecordOutcome_forwards_statistic (calm 20 0 id)
                   Sample.alice Sample.session 101 true 5 Scene.opened
                   _ _ _)).
  vm_compute. reflexivity.
Defined.

Lemma RecordOutcome_touches_one_record_witness :
  ∃ st' s',
    RecordOutcome (calm 20 0 id) Sample.alice Sample.session 101 false 7
      Scene.opened = (st', Success 200 s') ∧
    ∃ s i c,
      sessions Scene.opened !! Sample.session = Some s ∧
      user s = Sample.alice ∧
      flashcards s !! i = Some c ∧ flashcard c = 101%N ∧
      (∀ j c', flashcards s !! j = Some c' → (j < i)%nat →
               flashcard c' ≠ 101%N) ∧
      flashcards s' !! i
      = Some {| flashcard := 101; isCorrect := Some false;
                timeSpent := timeSpent c + 7;
                attempts := N.succ (attempts c) |} ∧
      (∀ j, j ≠ i → flashcards s' !! j = flashcards s !! j) ∧
      sessions st' !! Sample.session = Some s' ∧
      (∀ sid', sid' ≠ Sample.session →
               sessions st' !! sid' = sessions Scene.opened !! sid').
Proof.
  eexists _, _. split; [vm_compute; reflexivity|].
  apply (RecordOutcome_touches_one_record (calm 20 0 id) Sample.alice
           Sample.session 101 false 7 Scene.opened).
  vm_compute. reflexivity.
Defined.

Lemma RecordOutcome_save_rejected_witness :
  (RecordOutcome Scene.saves_reject Sample.alice Sample.session 101 true 5
     Scene.opened).2 = Failure 500 "Server error" ∧
  sessions (RecordOutcome Scene.saves_reject Sample.alice Sample.session
              101 true 5 Scene.opened).1
  = sessions Scene.opened ∧
  (correctAnswers ∘ fc_statistics <$>
     cards (RecordOutcome Scene.saves_reject Sample.alice Sample.session
              101 true 5 Scene.opened).1 !! 101%N) = Some 1.
Proof.
  simple refine
    (let H := RecordOutcome_save_rejected Scene.saves_reject Sample.alice
                Sample.session 101 true 5 Scene.opened _ 0%nat _ _ _ _ _ _ in
     conj (proj1 H) (conj (proj1 (proj2 H)) _)).
  - shelve.
  - reflexivity.
  - reflexivity.
  - reflexivity.
  - vm_compute. reflexivity.
  - reflexivity.
  - vm_compute. reflexivity.
  - vm_compute. reflexivity.
Defined.

Lemma CreateFlashcard_count_not_atomic_witness :
  (CreateFlashcard Scene.deck_updates_reject Sample.alice Sample.math true
     Sample.card_body Scene.library).2 = Failure 500 "Server error" ∧
  live_count Sample.math
    (CreateFlashcard Scene.deck_updates_reject Sample.alice Sample.math true
       Sample.card_body Scene.library).1 = 2%nat ∧
  (totalCards ∘ deck_statistics <$>
     decks (CreateFlashcard Scene.deck_updates_reject Sample.alice
              Sample.math true Sample.card_body Scene.library).1
     !! Sample.math) = Some 1.
Proof.
  simple refine
    (let H := CreateFlashcard_count_not_atomic Scene.deck_updates_reject
                Sample.alice Sample.math Sample.card_body Scene.library _
                _ _ _ _ _ _ in
     conj (proj1 H) (conj _ _)).
  - shelve.
  - reflexivity.
  - reflexivity.
  - reflexivity.
  - vm_compute. reflexivity.
  - reflexivity.
  - vm_compute. reflexivity.
  - vm_compute. reflexivity.
  - vm_compute. reflexivity.
Defined.

Lemma DeleteDeck_not_atomic_witness :
  (DeleteDeck Scene.session_deletes_reject Sample.alice Sample.math
     Scene.shelf).2 = Failure 500 "Server error" ∧
  decks (DeleteDeck Scene.session_deletes_reject Sample.alice Sample.math
           Scene.shelf).1 = decks Scene.shelf ∧
  cards (DeleteDeck Scene.session_deletes_reject Sample.alice Sample.math
           Scene.shelf).1 = ∅.
Proof.
  simple refine
    (let H := DeleteDeck_not_atomic Scene.session_deletes_reject
                Sample.alice Sample.math Scene.shelf _ _ _ _ _ _ in
     conj (proj1 H) (conj (proj1 (proj2 H)) _)).
  - shelve.
  - reflexivity.
  - reflexivity.
  - reflexivity.
  - vm_compute. reflexivity.
  - reflexivity.
  - vm_compute. reflexivity.
Defined.

Lemma CompleteSession_deck_update_rejected_witness :
  (CompleteSession Scene.deck_updates_reject Sample.alice Sample.session
     Scene.opened).2 = Failure 500 "Server error" ∧
  (isCompleted <$>
     sessions (CompleteSession Scene.deck_updates_reject Sample.alice
                 Sample.session Scene.opened).1 !! Sample.session)
  = Some true.
Proof.
  simple refine
    (let H := CompleteSession_deck_update_rejected
                Scene.deck_updates_reject Sample.alice Sample.session
                Scene.opened _ _ _ _ _ _ in
     conj (proj1 H) _).
  - shelve.
  - reflexivity.
  - reflexivity.
  - reflexivity.
  - vm_compute. reflexivity.
  - reflexivity.
  - vm_compute. reflexivity.
Defined.

Lemma CreateDeck_DeleteDeck_round_trip_witness :
  (CreateDeck (calm 50 2 id) Scene.bob true Sample.deck_body
     Scene.shelf).2 = Success 201 2%N ∧
  DeleteDeck Scene.at_noon Scene.bob 2
    (CreateDeck (calm 50 2 id) Scene.bob true Sample.deck_body
       Scene.shelf).1
  = (Scene.shelf, Success 200 ()).
Proof.
  apply (CreateDeck_DeleteDeck_round_trip (calm 50 2 id) Scene.at_noon
           Scene.bob Sample.deck_body Scene.shelf).
  - intros m op. reflexivity.
  - intros m op. reflexivity.
  - vm_compute. reflexivity.
  - change (map_Forall (λ _ c, fc_deck c ≠ 2%N) (cards Scene.shelf)).
    apply (bool_decide_unpack _). vm_compute. exact I.
  - change (map_Forall (λ _ s, deck s ≠ 2%N) (sessions Scene.shelf)).
    apply (bool_decide_unpack _). vm_compute. exact I.
Defined.

Lemma CreateFlashcard_DeleteFlashcard_round_trip_witness :
  (CreateFlashcard (calm 50 102 id) Sample.alice Sample.math true
     Sample.card_body Scene.library).2 = Success 201 102%N ∧
  DeleteFlashcard Scene.at_noon Sample.alice 102
    (CreateFlashcard (calm 50 102 id) Sample.alice Sample.math true
       Sample.card_body Scene.library).1
  = (Scene.library, Success 200 ()).
Proof.
  eapply (CreateFlashcard_DeleteFlashcard_round_trip (calm 50 102 id)
            Scene.at_noon Sample.alice Sample.math Sample.card_body
            Scene.library).
  - intros m op. reflexivity.
  - intros m op. reflexivity.
  - vm_compute. reflexivity.
  - reflexivity.
  - vm_compute. reflexivity.
Defined.

Lemma PutDeck_blank_fields_witness :
  PutDeck Scene.at_noon Sample.alice Sample.math Scene.blank_body
    Scene.library
  = (Scene.library, Success 200 ()) ∧
  PutDeck Scene.at_noon Sample.alice Sample.math Scene.blank_name
    Scene.library
  = (Scene.library, Failure 400 "Validation error").
Proof.
  split.
  - eapply (proj1 (PutDeck_blank_fields Scene.at_noon Sample.alice
                     Sample.math Scene.blank_body Scene.library)).
    + intros m op. reflexivity.
    + vm_compute. reflexivity.
    + reflexivity.
    + reflexivity.
    + intros s Hs. injection Hs as <-. reflexivity.
    + left. reflexivity.
    + right. reflexivity.
    + reflexivity.
    + reflexivity.
  - apply (proj2 (PutDeck_blank_fields Scene.at_noon Sample.alice
                    Sample.math Scene.blank_name Scene.library) " ").
    + reflexivity.
    + reflexivity.
Defined.

Lemma GetFlashcard_counts_the_view_witness :
  ∃ c, cards Scene.library !! 101%N = Some c ∧
    (GetFlashcard Scene.at_noon Sample.alice 101 Scene.library).2
    = Success 200 c ∧
    (totalViews ∘ fc_statistics <$>
       cards (GetFlashcard Scene.at_noon Sample.alice 101 Scene.library).1
       !! 101%N) = Some 1.
Proof.
  eexists. split; [vm_compute; reflexivity|].
  split; [|vm_compute; reflexivity].
  refine (proj1 (GetFlashcard_counts_the_view Scene.at_noon Sample.alice
                   101 _ Scene.library _ _ _)).
  - intros m op. reflexivity.
  - vm_compute. reflexivity.
  - reflexivity.
Defined.

Lemma UpdateFlashcard_keeps_deck_and_statistics_witness :
  ∃ c, cards Scene.shelf !! 101%N = Some c ∧
    ∃ c', cards (UpdateFlashcard Scene.at_noon Sample.alice 101 true
                   Sample.card_body Scene.shelf).1 !! 101%N = Some c' ∧
      fc_deck c' = fc_deck c ∧ fc_createdBy c' = fc_createdBy c ∧
      fc_statistics c' = fc_statistics c ∧
      (101%N ≠ 101%N → c' = c).
Proof.
  eexists. split; [vm_compute; reflexivity|].
  refine (proj2 (proj2 (UpdateFlashcard_keeps_deck_and_statistics
                          Scene.at_noon Sample.alice 101 true
                          Sample.card_body Scene.shelf 101 _ _))).
  vm_compute. reflexivity.
Defined.

Lemma statistics_ignore_other_users_witness :
  (GetUserStatistics Scene.at_noon Sample.alice None
     (set_sessions <[501%N := completed_at 9 (new_session 1 Scene.bob
                                               Sample.math [])]>
        Scene.shelf)).2
  = (GetUserStatistics Scene.at_noon Sample.alice None Scene.shelf).2.
Proof.
  apply statistics_ignore_other_users.
  - vm_compute. intros H. discriminate H.
  - intros s Hs. vm_compute in Hs. discriminate Hs.
Defined.

Lemma completed_sessions_are_timed_witness :
  ∃ s, sessions Scene.shelf !! Sample.session = Some s ∧
    ∃ e, endTime s = Some e ∧
         totalDuration s = Some ((e - startTime s) / 1000).
Proof.
  eexists. split; [vm_compute; reflexivity|].
  apply (completed_sessions_are_timed Scene.studied Sample.session).
  - vm_compute. reflexivity.
  - reflexivity.
Defined.
